(** * Meeting recorder bot: a shallow embedding of [main.py]

    The bot is a handful of event handlers over two pieces of module state
    (the [connections] dictionary and the configuration globals) and a set
    of external collaborators (voice transport, messaging, the two OpenAI
    services, the file system).  Handlers are embedded as computations in a
    state-and-exception monad that also records, in order, every call made
    to a collaborator.  What a collaborator answers is not decided by the
    program: it is read from an [Env] record handed to the handler, one
    record per handler run.  A handler runs from its first statement to its
    return as one step: no other handler runs while it awaits a call.

    Exceptions are the instances of Python's [Exception], which is what the
    [except Exception] clauses of the source catch; a raised exception is
    represented by its message. *)

From stdpp Require Import gmap strings pretty.
From Stdlib Require Import ZArith Ascii String.

Open Scope Z_scope.

(** ** Platform objects *)

(** A user account as seen inside a guild.  [discord.Member.__eq__]
    compares ids, which is all that [members == [guild.me]] looks at. *)
Record User := {
  user_id : Z;
  bot : bool;
  display_name : string
}.

Record VoiceChannel := {
  vchan_id : Z;
  vchan_name : string;
  members : list User
}.

Record TextChannel := {
  chan_id : Z
}.

(** The handle returned by [channel.connect()]. *)
Record VoiceClient := {
  vc_handle : Z;
  vc_channel : string
}.

Record Guild := {
  guild_id : Z;
  me : User;
  get_channel : Z → option TextChannel
}.

Record Member := {
  member_user : User;
  guild : Guild
}.

Record VoiceState := {
  channel : option VoiceChannel
}.

Record Context := {
  author : string;
  voice : option VoiceState;
  ctx_guild : Guild;
  ctx_channel : TextChannel
}.

Record AudioData := {
  file : string
}.

(** [sink.audio_data] is a dictionary read in insertion order. *)
Record Sink := {
  sink_vc : VoiceClient;
  audio_data : list (Z * AudioData)
}.

(** ** Module state *)

(** An entry of [connections]: [{"vc": vc, "summary_channel": channel}]. *)
Record Session := {
  vc : VoiceClient;
  summary_channel : option TextChannel
}.

(** Values stored in the [config] dictionary. *)
Inductive value :=
| VInt (n : Z)
| VList (ids : list Z).

(** What [config.json] holds on disk. *)
Inductive disk :=
| Holds (doc : gmap string value)
| Truncated.

Record World := {
  connections : gmap Z Session;
  allowed_voice_channels : list Z;
  SUMMARY_CHANNEL_ID : Z;
  TRANSCRIPT_CHANNEL_ID : Z;
  config : gmap string value;
  config_file : disk
}.

Definition set_connections (f : gmap Z Session → gmap Z Session) (w : World) : World :=
  {| connections := f (connections w);
     allowed_voice_channels := allowed_voice_channels w;
     SUMMARY_CHANNEL_ID := SUMMARY_CHANNEL_ID w;
     TRANSCRIPT_CHANNEL_ID := TRANSCRIPT_CHANNEL_ID w;
     config := config w;
     config_file := config_file w |}.

Definition set_allowed_voice_channels (l : list Z) (w : World) : World :=
  {| connections := connections w;
     allowed_voice_channels := l;
     SUMMARY_CHANNEL_ID := SUMMARY_CHANNEL_ID w;
     TRANSCRIPT_CHANNEL_ID := TRANSCRIPT_CHANNEL_ID w;
     config := config w;
     config_file := config_file w |}.

Definition set_SUMMARY_CHANNEL_ID (n : Z) (w : World) : World :=
  {| connections := connections w;
     allowed_voice_channels := allowed_voice_channels w;
     SUMMARY_CHANNEL_ID := n;
     TRANSCRIPT_CHANNEL_ID := TRANSCRIPT_CHANNEL_ID w;
     config := config w;
     config_file := config_file w |}.

Definition set_TRANSCRIPT_CHANNEL_ID (n : Z) (w : World) : World :=
  {| connections := connections w;
     allowed_voice_channels := allowed_voice_channels w;
     SUMMARY_CHANNEL_ID := SUMMARY_CHANNEL_ID w;
     TRANSCRIPT_CHANNEL_ID := n;
     config := config w;
     config_file := config_file w |}.

Definition set_config (f : gmap string value → gmap string value) (w : World) : World :=
  {| connections := connections w;
     allowed_voice_channels := allowed_voice_channels w;
     SUMMARY_CHANNEL_ID := SUMMARY_CHANNEL_ID w;
     TRANSCRIPT_CHANNEL_ID := TRANSCRIPT_CHANNEL_ID w;
     config := f (config w);
     config_file := config_file w |}.

Definition set_config_file (d : disk) (w : World) : World :=
  {| connections := connections w;
     allowed_voice_channels := allowed_voice_channels w;
     SUMMARY_CHANNEL_ID := SUMMARY_CHANNEL_ID w;
     TRANSCRIPT_CHANNEL_ID := TRANSCRIPT_CHANNEL_ID w;
     config := config w;
     config_file := d |}.

(** ** Exceptions, collaborators and the trace of calls *)

Definition exn := string.

Inductive result (A : Type) :=
| Ok (a : A)
| Raise (e : exn).
Arguments Ok {A} a.
Arguments Raise {A} e.

Inductive level := INFO | ERROR.

(** One entry per call that leaves the program, recorded when the call is
    made, whatever it answers. *)
Inductive Event :=
| Log (lvl : level) (fmt : string) (args : list string)
| Connect (ch : VoiceChannel)
| StartRecording (v : VoiceClient) (dest : option TextChannel)
| StopRecording (v : VoiceClient)
| Disconnect (v : VoiceClient)
| Send (ch : TextChannel) (msg : string)
| OpenConfig
| DumpConfig (doc : gmap string value)
| TempFile (uid : Z) (a : AudioData)
| Transcribe (path : string)
| Remove (path : string)
| Summarize (transcript : string).

(** Answers of the collaborators during one handler run.  [write_temp] is
    the rewind of a speaker's buffer and its copy to a named temporary
    file, answering with the path; [whisper] opens that file and calls the
    speech-to-text service, answering with the ["text"] entry of the
    response when there is one; [acreate] is the chat completion call on
    the transcript together with the reading of the first choice's
    content, which may be [None]; [now] is the formatted meeting time. *)
Record Env := {
  connect : VoiceChannel → result VoiceClient;
  vc_start_recording : VoiceClient → option TextChannel → result unit;
  vc_stop_recording : VoiceClient → result unit;
  vc_disconnect : VoiceClient → result unit;
  send : TextChannel → string → result unit;
  open_config : result unit;
  json_dump : gmap string value → result unit;
  write_temp : Z → AudioData → result string;
  whisper : string → result (option string);
  os_remove : string → result unit;
  acreate : string → result (option string);
  now : string;
  bot_get_channel : Z → option TextChannel
}.

(** ** The handler monad *)

Record Run (A : Type) := mkRun {
  outcome : result A;
  final : World;
  events : list Event
}.
Arguments mkRun {A} outcome final events.
Arguments outcome {A} r.
Arguments final {A} r.
Arguments events {A} r.

Definition M (A : Type) : Type := World → Run A.

Definition ret {A} (a : A) : M A := λ w, mkRun (Ok a) w [].

Definition bind {A B} (m : M A) (k : A → M B) : M B := λ w,
  match m w with
  | mkRun (Ok a) w1 evs1 =>
      match k a w1 with
      | mkRun o w2 evs2 => mkRun o w2 (evs1 ++ evs2)
      end
  | mkRun (Raise e) w1 evs1 => mkRun (Raise e) w1 evs1
  end.

#[global] Instance M_ret : MRet M := @ret.
#[global] Instance M_bind : MBind M := λ A B k m, bind m k.

Definition raise {A} (e : exn) : M A := λ w, mkRun (Raise e) w [].

(** [try: body except Exception as e: handler e].  State changes made by
    the body before it raised are kept. *)
Definition try_except {A} (body : M A) (handler : exn → M A) : M A := λ w,
  match body w with
  | mkRun (Ok a) w1 evs1 => mkRun (Ok a) w1 evs1
  | mkRun (Raise e) w1 evs1 =>
      match handler e w1 with
      | mkRun o w2 evs2 => mkRun o w2 (evs1 ++ evs2)
      end
  end.

(** The value or the exception of an evaluation that makes no call. *)
Definition lift {A} (r : result A) : M A := λ w, mkRun r w [].

Definition gets {A} (f : World → A) : M A := λ w, mkRun (Ok (f w)) w [].
Definition modify (f : World → World) : M unit := λ w, mkRun (Ok tt) (f w) [].

(** A call to a collaborator: it is recorded, then it answers. *)
Definition call {A} (ev : Event) (answer : result A) : M A := λ w,
  mkRun answer w [ev].

Definition logger_info (fmt : string) (args : list string) : M unit :=
  call (Log INFO fmt args) (Ok tt).
Definition logger_error (fmt : string) (args : list string) : M unit :=
  call (Log ERROR fmt args) (Ok tt).

(** [str(x)] for the values that reach a format string. *)
Definition str_int (n : Z) : string := pretty n.
Definition str_voice_channel (c : option VoiceChannel) : string :=
  match c with
  | Some c => vchan_name c
  | None => "None"
  end.

(** ", ".join(l) *)
Fixpoint join (sep : string) (l : list string) : string :=
  match l with
  | [] => ""
  | [s] => s
  | s :: rest => s +:+ sep +:+ join sep rest
  end.

(** ** Method calls on objects that may be [None] *)

Definition channel_send (env : Env) (c : option TextChannel) (msg : string) : M unit :=
  match c with
  | Some c => call (Send c msg) (send env c msg)
  | None => raise "'NoneType' object has no attribute 'send'"
  end.

Definition ctx_send (env : Env) (ctx : Context) (msg : string) : M unit :=
  call (Send (ctx_channel ctx) msg) (send env (ctx_channel ctx) msg).

Definition channel_connect (env : Env) (c : option VoiceChannel) : M VoiceClient :=
  match c with
  | Some c => call (Connect c) (connect env c)
  | None => raise "'NoneType' object has no attribute 'connect'"
  end.

(** ** Commands *)

(** [record]: the try block yields the voice client, the except branch
    answers the user and returns from the command. *)
Definition record (env : Env) (ctx : Context) : M unit :=
  logger_info "Record command called by %s" [author ctx];;
  match voice ctx with
  | None => ctx_send env ctx "⚠️ You aren't in a voice channel!"
  | Some voice =>
      connected ← try_except
        (logger_info "Connecting to voice channel: %s" [str_voice_channel (channel voice)];;
         v ← channel_connect env (channel voice);
         logger_info "Connected to voice channel: %s" [str_voice_channel (channel voice)];;
         mret (Some v))
        (λ e,
         logger_error "Error connecting to voice channel: %s" [e];;
         ctx_send env ctx "⚠️ Failed to connect to the voice channel.";;
         mret None);
      match connected with
      | None => mret tt
      | Some v =>
          modify (set_connections
                    <[guild_id (ctx_guild ctx) :=
                        {| vc := v; summary_channel := Some (ctx_channel ctx) |}]>);;
          logger_info "Starting manual recording..." [];;
          call (StartRecording v (Some (ctx_channel ctx)))
               (vc_start_recording env v (Some (ctx_channel ctx)));;
          ctx_send env ctx "🔴 Listening to this conversation."
      end
  end.

Definition stop_recording (env : Env) (ctx : Context) : M unit :=
  logger_info "Stop recording command called by %s" [author ctx];;
  conns ← gets connections;
  match conns !! guild_id (ctx_guild ctx) with
  | Some record_info =>
      logger_info "Stopping recording in voice channel: %s" [vc_channel (vc record_info)];;
      call (StopRecording (vc record_info)) (vc_stop_recording env (vc record_info));;
      modify (set_connections (delete (guild_id (ctx_guild ctx))));;
      ctx_send env ctx "🛑 Stopped recording."
  | None => ctx_send env ctx "🚫 Not recording here."
  end.

(** ** Builtins on strings *)

Definition code (c : ascii) : Z := Z.of_N (N_of_ascii c).

(** [str.isspace] on the ASCII range: tab to carriage return, the four
    separators 28 to 31, and space.  Python also counts some characters
    outside ASCII, which a byte string does not single out. *)
Definition py_isspace (c : ascii) : bool :=
  ((9 <=? code c) && (code c <=? 13)) ||
  ((28 <=? code c) && (code c <=? 32)).

Fixpoint lstrip (s : string) : string :=
  match s with
  | String c rest => if py_isspace c then lstrip rest else s
  | EmptyString => EmptyString
  end.

Definition rstrip (s : string) : string := String.rev (lstrip (String.rev s)).

(** [s.strip()] *)
Definition strip (s : string) : string := rstrip (lstrip s).

Definition is_digit (c : ascii) : bool := (48 <=? code c) && (code c <=? 57).

(** The digits of a decimal literal; a single underscore may sit between
    two digits. *)
Fixpoint digits (s : string) (acc : Z) (after_digit : bool) : option Z :=
  match s with
  | EmptyString => if after_digit then Some acc else None
  | String c rest =>
      if is_digit c then digits rest (10 * acc + (code c - 48)) true
      else if Ascii.eqb c "_" && after_digit then digits rest acc false
      else None
  end.

(** [int(s)] in base ten on ASCII text. *)
Definition py_int (s : string) : result Z :=
  let body := strip s in
  let parsed :=
    match body with
    | String "-" rest => Z.opp <$> digits rest 0 false
    | String "+" rest => digits rest 0 false
    | _ => digits body 0 false
    end in
  match parsed with
  | Some n => Ok n
  | None => Raise ("invalid literal for int() with base 10: '" +:+ s +:+ "'")
  end.

Definition repr_tuple (l : list string) : string :=
  match l with
  | [] => "()"
  | [s] => "('" +:+ s +:+ "',)"
  | _ => "(" +:+ join ", " (map (λ s, "'" +:+ s +:+ "'") l) +:+ ")"
  end.

(** ** Configuration commands *)

(** [with open(CONFIG_FILE, "w") as f: json.dump(config, f, indent=4)].
    Opening for writing empties the file; the document is on disk once
    the dump has returned. *)
Definition dump_config (env : Env) : M unit :=
  call OpenConfig (open_config env);;
  modify (set_config_file Truncated);;
  cfg ← gets config;
  call (DumpConfig cfg) (json_dump env cfg);;
  modify (set_config_file (Holds cfg)).

Section Setters.

(** The builtin [int] applied to a command argument. *)
Variable int : string → result Z.

(** [[int(cid) for cid in channel_ids]]: the list exists only when every
    element converted. *)
Fixpoint ints (channel_ids : list string) : M (list Z) :=
  match channel_ids with
  | [] => mret []
  | cid :: rest =>
      n ← lift (int cid);
      more ← ints rest;
      mret (n :: more)
  end.

Definition set_auto_record_channels (env : Env) (ctx : Context)
    (channel_ids : list string) : M unit :=
  logger_info "set_auto_channels command called by %s with inputs: %s"
              [author ctx; repr_tuple channel_ids];;
  parsed ← try_except
    (l ← ints channel_ids;
     modify (set_allowed_voice_channels l);;
     mret true)
    (λ e,
     logger_error "Invalid channel ID provided: %s" [e];;
     ctx_send env ctx "Invalid channel ID provided in one or more inputs!";;
     mret false);
  if parsed : bool then
    l ← gets allowed_voice_channels;
    modify (set_config <["allowed_voice_channels" := VList l]>);;
    dump_config env;;
    l ← gets allowed_voice_channels;
    ctx_send env ctx ("Auto record channels updated to: " +:+ join ", " (map str_int l))
  else mret tt.

Definition set_summary_channel (env : Env) (ctx : Context)
    (channel_id : string) : M unit :=
  logger_info "set_summary_channel command called by %s with input: %s"
              [author ctx; channel_id];;
  parsed ← try_except
    (n ← lift (int channel_id);
     modify (set_SUMMARY_CHANNEL_ID n);;
     mret true)
    (λ e,
     logger_error "Invalid channel ID provided: %s" [e];;
     ctx_send env ctx "Invalid channel ID provided!";;
     mret false);
  if parsed : bool then
    n ← gets SUMMARY_CHANNEL_ID;
    modify (set_config <["SUMMARY_CHANNEL_ID" := VInt n]>);;
    dump_config env;;
    n ← gets SUMMARY_CHANNEL_ID;
    ctx_send env ctx ("Summary channel set to: " +:+ str_int n)
  else mret tt.

Definition set_transcript_channel (env : Env) (ctx : Context)
    (channel_id : string) : M unit :=
  logger_info "set_transcript_channel command called by %s with input: %s"
              [author ctx; channel_id];;
  parsed ← try_except
    (n ← lift (int channel_id);
     modify (set_TRANSCRIPT_CHANNEL_ID n);;
     mret true)
    (λ e,
     logger_error "Invalid channel ID provided: %s" [e];;
     ctx_send env ctx "Invalid channel ID provided!";;
     mret false);
  if parsed : bool then
    n ← gets TRANSCRIPT_CHANNEL_ID;
    modify (set_config <["TRANSCRIPT_CHANNEL_ID" := VInt n]>);;
    dump_config env;;
    n ← gets TRANSCRIPT_CHANNEL_ID;
    ctx_send env ctx ("Transcript channel set to: " +:+ str_int n)
  else mret tt.

End Setters.

(** ** Auto-recording via voice state *)

(** [l1 == l2] on lists of members: same length, equal ids position by
    position. *)
Fixpoint members_eq (l1 l2 : list User) : bool :=
  match l1, l2 with
  | [], [] => true
  | a :: l1, b :: l2 => (user_id a =? user_id b) && members_eq l1 l2
  | _, _ => false
  end.

(** [any(not m.bot for m in members)] *)
Definition any_human (ms : list User) : bool := existsb (λ m, negb (bot m)) ms.

Definition on_voice_state_update (env : Env) (member : Member)
    (before after : VoiceState) : M unit :=
  let guild := guild member in
  try_except
    ((match channel before, channel after with
      | None, Some after_channel =>
          allowed ← gets allowed_voice_channels;
          if bool_decide (vchan_id after_channel ∈ allowed) then
            conns ← gets connections;
            if bool_decide (conns !! guild_id guild = None)
               && any_human (members after_channel) then
              logger_info "Auto-record: %s joined %s. Connecting..."
                          [display_name (member_user member); vchan_name after_channel];;
              v ← call (Connect after_channel) (connect env after_channel);
              summary_id ← gets SUMMARY_CHANNEL_ID;
              let summary_channel := get_channel guild summary_id in
              modify (set_connections
                        <[guild_id guild :=
                            {| vc := v; summary_channel := summary_channel |}]>);;
              logger_info "Starting auto-recording in channel: %s" [vchan_name after_channel];;
              call (StartRecording v summary_channel)
                   (vc_start_recording env v summary_channel);;
              logger_info "Auto-recording started in %s" [vchan_name after_channel]
            else mret tt
          else mret tt
      | _, _ => mret tt
      end);;
     (match channel before with
      | Some before_channel =>
          allowed ← gets allowed_voice_channels;
          if bool_decide (vchan_id before_channel ∈ allowed) then
            if members_eq (members before_channel) [me guild] then
              conns ← gets connections;
              match conns !! guild_id guild with
              | Some record_info =>
                  logger_info "Auto-stop: Only bot left in %s. Stopping recording..."
                              [vchan_name before_channel];;
                  call (StopRecording (vc record_info))
                       (vc_stop_recording env (vc record_info));;
                  modify (set_connections (delete (guild_id guild)));;
                  logger_info "Auto-recording stopped in %s" [vchan_name before_channel]
              | None => mret tt
              end
            else mret tt
          else mret tt
      | None => mret tt
      end))
    (λ e, logger_error "Error in on_voice_state_update: %s" [e]).

(** ** Processing the recorded audio *)

Definition newline : string := String (ascii_of_nat 10) EmptyString.

Definition mention (user_id : Z) : string := "<@" +:+ str_int user_id +:+ ">".

Definition sentinel : string := "[Error transcribing audio]".

(** The body of the loop over [sink.audio_data.items()], up to the
    [append]: the text kept for one speaker.  Rewinding the buffer and
    writing it to the temporary file is one call, opening that file and
    sending it to the service another, removing it the third. *)
Definition transcribe_one (env : Env) (user_id : Z) (audio : AudioData) : M string :=
  try_except
    (logger_info "Calling OpenAI Whisper API to transcribe audio for user: %s"
                 [str_int user_id];;
     temp_audio_path ← call (TempFile user_id audio) (write_temp env user_id audio);
     response ← call (Transcribe temp_audio_path) (whisper env temp_audio_path);
     let transcript_text := default "" response in
     logger_info "Received transcription for user %s" [str_int user_id];;
     call (Remove temp_audio_path) (os_remove env temp_audio_path);;
     mret transcript_text)
    (λ e,
     logger_error "Error transcribing audio for user %s: %s" [str_int user_id; e];;
     mret sentinel).

Fixpoint transcribe_all (env : Env) (items : list (Z * AudioData)) : M (list (Z * string)) :=
  match items with
  | [] => mret []
  | (user_id, audio) :: rest =>
      transcript_text ← transcribe_one env user_id audio;
      transcripts ← transcribe_all env rest;
      mret ((user_id, transcript_text) :: transcripts)
  end.

(** The transcript before [strip]: one block per speaker, in order. *)
Fixpoint assemble (transcripts : list (Z * string)) : string :=
  match transcripts with
  | [] => ""
  | (user_id, text) :: rest =>
      (newline +:+ newline +:+ "Speaker " +:+ mention user_id +:+ ": " +:+ text)
      +:+ assemble rest
  end.

Definition final_transcript (transcripts : list (Z * string)) : string :=
  strip (assemble transcripts).

(** [f"{summary}"]: the content of the first choice, which may be [None]. *)
Definition str_summary (content : option string) : string := default "None" content.

Definition summary_message (meeting_time : string) (recorded_users : list string)
    (summary : option string) : string :=
  "**Meeting Date & Time:** " +:+ meeting_time +:+ newline +:+
  "**Participants:** " +:+ join ", " recorded_users +:+ newline +:+
  "**Summary:**" +:+ newline +:+ str_summary summary +:+ newline +:+ newline.

Definition transcript_message (meeting_time : string) (recorded_users : list string)
    (transcript : string) : string :=
  "**Meeting Date & Time:** " +:+ meeting_time +:+ newline +:+
  "**Participants:** " +:+ join ", " recorded_users +:+ newline +:+
  "**Transcript:**" +:+ newline +:+ transcript.

Definition once_done (env : Env) (sink : Sink) (channel : option TextChannel) : M unit :=
  try_except
    (let recorded_users := map (λ item, mention (fst item)) (audio_data sink) in
     call (Disconnect (sink_vc sink)) (vc_disconnect env (sink_vc sink));;
     transcripts ← transcribe_all env (audio_data sink);
     let final_transcript := final_transcript transcripts in
     logger_info "Calling OpenAI API for summarization" [];;
     summary ← call (Summarize final_transcript) (acreate env final_transcript);
     logger_info "Received summary from OpenAI API" [];;
     let meeting_time := now env in
     channel_send env channel (summary_message meeting_time recorded_users summary);;
     transcript_id ← gets TRANSCRIPT_CHANNEL_ID;
     match bot_get_channel env transcript_id with
     | Some transcript_channel =>
         call (Send transcript_channel
                 (transcript_message meeting_time recorded_users final_transcript))
              (send env transcript_channel
                 (transcript_message meeting_time recorded_users final_transcript))
     | None => logger_error "Transcript channel not found!" []
     end)
    (λ e, logger_error "Error in once_done: %s" [e]).

(** ** Read-only commands *)

Definition how_to_configure (env : Env) (ctx : Context) : M unit :=
  logger_info "how_to_configure command called by %s" [author ctx];;
  let config_message :=
    "**Bot Help & Configuration Instructions:**" +:+ newline +:+ newline +:+
    "**Commands:**" +:+ newline +:+
    "• `/record` - Start recording in your current voice channel. (Manual mode sends summary to this text channel.)" +:+ newline +:+
    "• `/stop_recording` - Stop the ongoing manual recording." +:+ newline +:+
    "• `/set_auto_channels [channel_id1] [channel_id2] ...` - Set voice channels that trigger auto-recording." +:+ newline +:+
    "• `/set_summary_channel [channel_id]` - Set the text channel for auto-recording summaries." +:+ newline +:+
    "• `/set_transcript_channel [channel_id]` - Set the text channel for auto-recording transcripts." +:+ newline +:+
    "• `/how_to_configure` - Show these instructions." +:+ newline +:+
    "• `/show_config` - List the currently configured auto-record channels, summary channel, and transcript channel." +:+ newline +:+ newline +:+
    "**Usage:**" +:+ newline +:+
    "• In manual mode, the transcript and summary are sent to the configured channels." +:+ newline +:+
    "• In auto mode, when a user joins an allowed voice channel, recording starts automatically; the summary is sent to the summary channel and the transcript to the transcript channel." +:+ newline +:+
    "• Settings are persisted in a configuration file." +:+ newline +:+ newline +:+
    "AscendBot v1.0.0" in
  ctx_send env ctx config_message.

Definition show_config (env : Env) (ctx : Context) : M unit :=
  logger_info "show_config command called by %s" [author ctx];;
  allowed ← gets allowed_voice_channels;
  summary_id ← gets SUMMARY_CHANNEL_ID;
  transcript_id ← gets TRANSCRIPT_CHANNEL_ID;
  let auto_channels :=
    match allowed with
    | [] => "None"
    | _ => join ", " (map str_int allowed)
    end in
  let config_message :=
    "**Configured Auto-Record Channels:** " +:+ auto_channels +:+ newline +:+
    "**Configured Summary Channel:** " +:+ str_int summary_id +:+ newline +:+
    "**Configured Transcript Channel:** " +:+ str_int transcript_id in
  ctx_send env ctx config_message.

(** ** Loading the configuration *)

Definition default_config : gmap string value :=
  <["allowed_voice_channels" := VList []]>
    (<["SUMMARY_CHANNEL_ID" := VInt 123456789012345678]>
       (<["TRANSCRIPT_CHANNEL_ID" := VInt 123456789012345678]> ∅)).

(** [config.get(key, default)] where the module goes on to use the value
    as a list of ids, or as one id.  An entry of the other kind would put
    into the global a value that [World] has no place for: [None]. *)
Definition get_ids (cfg : gmap string value) (key : string) (dflt : list Z)
    : option (list Z) :=
  match cfg !! key with
  | None => Some dflt
  | Some (VList ids) => Some ids
  | Some (VInt _) => None
  end.

Definition get_id (cfg : gmap string value) (key : string) (dflt : Z) : option Z :=
  match cfg !! key with
  | None => Some dflt
  | Some (VInt n) => Some n
  | Some (VList _) => None
  end.

(** How the import of the module ends. *)
Inductive startup :=
| Started (w : World)
| Failed (e : exn)
| Untyped.

(** The statements of the module that set up [connections] and the
    configuration, run on what [config.json] is when the bot starts:
    missing ([None]), a document, or text that is no JSON document. *)
Definition module_init (env : Env) (on_disk : option disk) : startup :=
  let loaded : result (gmap string value * disk) :=
    match on_disk with
    | Some d =>
        match open_config env, d with
        | Ok _, Holds doc => Ok (doc, d)
        | Ok _, Truncated => Raise "Expecting value: line 1 column 1 (char 0)"
        | Raise e, _ => Raise e
        end
    | None =>
        match open_config env with
        | Ok _ =>
            match json_dump env default_config with
            | Ok _ => Ok (default_config, Holds default_config)
            | Raise e => Raise e
            end
        | Raise e => Raise e
        end
    end in
  match loaded with
  | Ok (cfg, d) =>
      match get_ids cfg "allowed_voice_channels" [],
            get_id cfg "SUMMARY_CHANNEL_ID" 123456789012345678,
            get_id cfg "TRANSCRIPT_CHANNEL_ID" 123456789012345678 with
      | Some allowed, Some summary_id, Some transcript_id =>
          Started {| connections := ∅;
                     allowed_voice_channels := allowed;
                     SUMMARY_CHANNEL_ID := summary_id;
                     TRANSCRIPT_CHANNEL_ID := transcript_id;
                     config := cfg;
                     config_file := d |}
      | _, _, _ => Untyped
      end
  | Raise e => Failed e
  end.

(** * Vocabulary of the properties *)

(** ** Reading a trace *)

Definition answer_exn {A} (r : result A) : option exn :=
  match r with
  | Ok _ => None
  | Raise e => Some e
  end.

(** The exception, if any, with which a recorded call was answered. *)
Definition raised (env : Env) (ev : Event) : option exn :=
  match ev with
  | Log _ _ _ => None
  | Connect ch => answer_exn (connect env ch)
  | StartRecording v dest => answer_exn (vc_start_recording env v dest)
  | StopRecording v => answer_exn (vc_stop_recording env v)
  | Disconnect v => answer_exn (vc_disconnect env v)
  | Send c msg => answer_exn (send env c msg)
  | OpenConfig => answer_exn (open_config env)
  | DumpConfig doc => answer_exn (json_dump env doc)
  | TempFile uid a => answer_exn (write_temp env uid a)
  | Transcribe path => answer_exn (whisper env path)
  | Remove path => answer_exn (os_remove env path)
  | Summarize t => answer_exn (acreate env t)
  end.

(** The voice clients on which [stop_recording()] was called, in order. *)
Fixpoint stops (evs : list Event) : list VoiceClient :=
  match evs with
  | [] => []
  | StopRecording v :: rest => v :: stops rest
  | _ :: rest => stops rest
  end.

(** The messages handed to [send], in order. *)
Fixpoint sends (evs : list Event) : list (TextChannel * string) :=
  match evs with
  | [] => []
  | Send c msg :: rest => (c, msg) :: sends rest
  | _ :: rest => sends rest
  end.

(** The conditions under which a join starts an automatic recording. *)
Definition auto_start (w : World) (g : Guild) (ch : VoiceChannel) : Prop :=
  vchan_id ch ∈ allowed_voice_channels w
  ∧ connections w !! guild_id g = None
  ∧ ∃ m, m ∈ members ch ∧ bot m = false.

(** The three commands that edit the configuration. *)
Inductive setter :=
| SetSummaryChannel (channel_id : string)
| SetTranscriptChannel (channel_id : string)
| SetAutoRecordChannels (channel_ids : list string).

(** ** What the conversions alone decide *)

Section Conversions.

(** The builtin [int] applied to a command argument. *)
Variable int : string → result Z.

(** The list comprehension touches neither the state nor a collaborator;
    its value is the list of converted ids or the first exception. *)
Fixpoint converted (channel_ids : list string) : result (list Z) :=
  match channel_ids with
  | [] => Ok []
  | cid :: rest =>
      match int cid with
      | Ok n => match converted rest with
                | Ok more => Ok (n :: more)
                | Raise e => Raise e
                end
      | Raise e => Raise e
      end
  end.

(** The command that a [setter] names. *)
Definition run_setter (env : Env) (ctx : Context) (c : setter) : M unit :=
  match c with
  | SetSummaryChannel channel_id => set_summary_channel int env ctx channel_id
  | SetTranscriptChannel channel_id => set_transcript_channel int env ctx channel_id
  | SetAutoRecordChannels channel_ids => set_auto_record_channels int env ctx channel_ids
  end.

End Conversions.

(** The answer with which a setter reports success, read off the state it
    leaves. *)
Definition success_reply (c : setter) (w : World) : string :=
  match c with
  | SetSummaryChannel _ =>
      "Summary channel set to: " +:+ str_int (SUMMARY_CHANNEL_ID w)
  | SetTranscriptChannel _ =>
      "Transcript channel set to: " +:+ str_int (TRANSCRIPT_CHANNEL_ID w)
  | SetAutoRecordChannels _ =>
      "Auto record channels updated to: "
      +:+ join ", " (map str_int (allowed_voice_channels w))
  end.

(** The entry of [config] that a setter is in charge of holds the value of
    its global. *)
Definition entry_written (c : setter) (w : World) : Prop :=
  match c with
  | SetSummaryChannel _ =>
      config w !! "SUMMARY_CHANNEL_ID" = Some (VInt (SUMMARY_CHANNEL_ID w))
  | SetTranscriptChannel _ =>
      config w !! "TRANSCRIPT_CHANNEL_ID" = Some (VInt (TRANSCRIPT_CHANNEL_ID w))
  | SetAutoRecordChannels _ =>
      config w !! "allowed_voice_channels" = Some (VList (allowed_voice_channels w))
  end.

Definition placeholder_id : Z := 123456789012345678.

(** The three globals are what the module reads from [config] when it is
    loaded: the entry, or the default when the key is missing. *)
Definition mirrors (w : World) : Prop :=
  match config w !! "allowed_voice_channels" with
  | Some v => v = VList (allowed_voice_channels w)
  | None => allowed_voice_channels w = []
  end
  ∧ match config w !! "SUMMARY_CHANNEL_ID" with
    | Some v => v = VInt (SUMMARY_CHANNEL_ID w)
    | None => SUMMARY_CHANNEL_ID w = placeholder_id
    end
  ∧ match config w !! "TRANSCRIPT_CHANNEL_ID" with
    | Some v => v = VInt (TRANSCRIPT_CHANNEL_ID w)
    | None => TRANSCRIPT_CHANNEL_ID w = placeholder_id
    end.

(** ** What the collaborators alone decide for the pipeline *)

(** The text kept for one speaker, read off the answers of the
    collaborators to the three calls of the attempt. *)
Definition text_for (env : Env) (user_id : Z) (audio : AudioData) : string :=
  match write_temp env user_id audio with
  | Ok path =>
      match whisper env path, os_remove env path with
      | Ok response, Ok _ => default "" response
      | _, _ => sentinel
      end
  | Raise _ => sentinel
  end.

Definition transcripts_of (env : Env) (items : list (Z * AudioData)) : list (Z * string) :=
  map (λ item, (fst item, text_for env (fst item) (snd item))) items.

(** The events of the loop over the speakers. *)
Definition transcription_event (ev : Event) : Prop :=
  match ev with
  | Log INFO _ _ => True
  | Log ERROR fmt _ => fmt = "Error transcribing audio for user %s: %s"
  | TempFile _ _ | Transcribe _ | Remove _ => True
  | _ => False
  end.

(** ** Sample guild, used to run the handlers on concrete inputs *)

Definition recorder : User := {| user_id := 1; bot := true; display_name := "recorder" |}.
Definition alice : User := {| user_id := 2; bot := false; display_name := "alice" |}.
Definition jukebox : User := {| user_id := 3; bot := true; display_name := "jukebox" |}.

Definition general : TextChannel := {| chan_id := 200 |}.
Definition notes : TextChannel := {| chan_id := 201 |}.

Definition lobby (ms : list User) : VoiceChannel :=
  {| vchan_id := 100; vchan_name := "Lobby"; members := ms |}.

Definition town : Guild :=
  {| guild_id := 7;
     me := recorder;
     get_channel := λ id, if id =? 200 then Some general
                          else if id =? 201 then Some notes else None |}.

Definition alice_in_town : Member := {| member_user := alice; guild := town |}.

Definition handle (n : Z) : VoiceClient := {| vc_handle := n; vc_channel := "Lobby" |}.

(** Collaborators that answer every call. *)
Definition fair : Env :=
  {| connect := λ _, Ok (handle 2);
     vc_start_recording := λ _ _, Ok tt;
     vc_stop_recording := λ _, Ok tt;
     vc_disconnect := λ _, Ok tt;
     send := λ _ _, Ok tt;
     open_config := Ok tt;
     json_dump := λ _, Ok tt;
     write_temp := λ uid _, Ok ("/tmp/" +:+ str_int uid +:+ ".wav");
     whisper := λ path, Ok (Some ("heard " +:+ path));
     os_remove := λ _, Ok tt;
     acreate := λ _, Ok (Some "minutes");
     now := "3rd Nov, 2026 | 09:31 AM";
     bot_get_channel := get_channel town |}.

Definition idle : World :=
  {| connections := ∅;
     allowed_voice_channels := [100];
     SUMMARY_CHANNEL_ID := 201;
     TRANSCRIPT_CHANNEL_ID := 200;
     config := <["allowed_voice_channels" := VList [100]]>
                 (<["SUMMARY_CHANNEL_ID" := VInt 201]>
                    (<["TRANSCRIPT_CHANNEL_ID" := VInt 200]> ∅));
     config_file := Holds (<["allowed_voice_channels" := VList [100]]>
                             (<["SUMMARY_CHANNEL_ID" := VInt 201]>
                                (<["TRANSCRIPT_CHANNEL_ID" := VInt 200]> ∅))) |}.

Definition first_session : Session :=
  {| vc := handle 1; summary_channel := Some notes |}.

(** The guild is being recorded. *)
Definition busy : World := set_connections <[7 := first_session]> idle.

Definition alice_asks : Context :=
  {| author := "alice";
     voice := Some {| channel := Some (lobby [recorder; alice]) |};
     ctx_guild := town;
     ctx_channel := general |}.

Definition recorder_alone : VoiceState := {| channel := Some (lobby [recorder]) |}.
Definition gone : VoiceState := {| channel := None |}.

(** Collaborators like [fair], except for the speech-to-text service, the
    summarization service and the channel cache of the bot. *)
Definition studio (heard : string → result (option string))
    (summary : result (option string)) (cache : Z → option TextChannel) : Env :=
  {| connect := connect fair;
     vc_start_recording := vc_start_recording fair;
     vc_stop_recording := vc_stop_recording fair;
     vc_disconnect := vc_disconnect fair;
     send := send fair;
     open_config := open_config fair;
     json_dump := json_dump fair;
     write_temp := write_temp fair;
     whisper := heard;
     os_remove := os_remove fair;
     acreate := λ _, summary;
     now := now fair;
     bot_get_channel := cache |}.

(** Two speakers were captured. *)
Definition tape : Sink :=
  {| sink_vc := handle 1;
     audio_data := [(2, {| file := "RIFF-alice" |}); (4, {| file := "RIFF-bob" |})] |}.

(** The service cannot read the second recording. *)
Definition hard_of_hearing (path : string) : result (option string) :=
  if String.eqb path "/tmp/4.wav" then Raise "Invalid file format."
  else Ok (Some "hello everyone").

(** The configured summary channel is not a channel of the guild. *)
Definition adrift : World := set_SUMMARY_CHANNEL_ID 999 idle.

(** Collaborators that answer like [fair], except for the calls that
    [fault] picks, which raise. *)
Definition faulty (fault : Event → option exn) : Env :=
  let answer {A} (ev : Event) (a : result A) : result A :=
    match fault ev with
    | Some e => Raise e
    | None => a
    end in
  {| connect := λ ch, answer (Connect ch) (connect fair ch);
     vc_start_recording := λ v dest,
       answer (StartRecording v dest) (vc_start_recording fair v dest);
     vc_stop_recording := λ v, answer (StopRecording v) (vc_stop_recording fair v);
     vc_disconnect := λ v, answer (Disconnect v) (vc_disconnect fair v);
     send := λ c msg, answer (Send c msg) (send fair c msg);
     open_config := answer OpenConfig (open_config fair);
     json_dump := λ doc, answer (DumpConfig doc) (json_dump fair doc);
     write_temp := λ uid a, answer (TempFile uid a) (write_temp fair uid a);
     whisper := λ path, answer (Transcribe path) (whisper fair path);
     os_remove := λ path, answer (Remove path) (os_remove fair path);
     acreate := λ t, answer (Summarize t) (acreate fair t);
     now := now fair;
     bot_get_channel := bot_get_channel fair |}.

Definition no_voice_gateway (ev : Event) : option exn :=
  match ev with
  | Connect _ => Some "Timed out connecting to voice"
  | _ => None
  end.

Definition no_recording (ev : Event) : option exn :=
  match ev with
  | StartRecording _ _ => Some "Not connected to voice channel."
  | StopRecording _ => Some "Not currently recording audio."
  | _ => None
  end.

Definition voice_stuck (ev : Event) : option exn :=
  match ev with
  | Disconnect _ => Some "Cannot write to closing transport"
  | _ => None
  end.

Definition muted (ev : Event) : option exn :=
  match ev with
  | Send _ _ => Some "403 Forbidden (error code: 50013): Missing Permissions"
  | _ => None
  end.


(** A user who is in no voice channel. *)
Definition bob_asks : Context :=
  {| author := "bob"; voice := None; ctx_guild := town; ctx_channel := general |}.

(** Nobody spoke. *)
Definition silence : Sink := {| sink_vc := handle 1; audio_data := [] |}.

(** The state of a first start. *)
Definition fresh : World :=
  {| connections := ∅;
     allowed_voice_channels := [];
     SUMMARY_CHANNEL_ID := 123456789012345678;
     TRANSCRIPT_CHANNEL_ID := 123456789012345678;
     config := default_config;
     config_file := Holds default_config |}.

(** ** Vocabulary of the further properties *)

(** The channel holds the bot of the guild and nobody else. *)
Definition bot_alone (g : Guild) (ch : VoiceChannel) : Prop :=
  ∃ u, members ch = [u] ∧ user_id u = user_id (me g).

(** The configuration part of the state. *)
Definition same_configuration (w w' : World) : Prop :=
  allowed_voice_channels w' = allowed_voice_channels w
  ∧ SUMMARY_CHANNEL_ID w' = SUMMARY_CHANNEL_ID w
  ∧ TRANSCRIPT_CHANNEL_ID w' = TRANSCRIPT_CHANNEL_ID w
  ∧ config w' = config w
  ∧ config_file w' = config_file w.

(** The sessions of the guilds other than [gid]. *)
Definition same_elsewhere (gid : Z) (w w' : World) : Prop :=
  ∀ gid', gid' ≠ gid → connections w' !! gid' = connections w !! gid'.

(** The transcripts handed to the summarization service, in order. *)
Fixpoint summarize_calls (evs : list Event) : list string :=
  match evs with
  | [] => []
  | Summarize t :: rest => t :: summarize_calls rest
  | _ :: rest => summarize_calls rest
  end.

(** The key of [config] that a setter writes. *)
Definition setter_key (c : setter) : string :=
  match c with
  | SetSummaryChannel _ => "SUMMARY_CHANNEL_ID"
  | SetTranscriptChannel _ => "TRANSCRIPT_CHANNEL_ID"
  | SetAutoRecordChannels _ => "allowed_voice_channels"
  end.


(** * Properties *)

(** ** Proof automation for straight-line handler code *)

Ltac unfold_monad :=
  cbv beta iota zeta delta
    [mbind M_bind bind mret M_ret ret try_except call gets modify lift raise
     logger_info logger_error channel_send ctx_send channel_connect
     outcome final events channel voice andb negb].

(** Case analysis on an innermost scrutinee that blocks evaluation: a
    test on the state or the answer of a collaborator. *)
Ltac case_stuck :=
  match goal with
  | |- context [match ?x with _ => _ end] =>
      lazymatch x with
      | context [match _ with _ => _ end] => fail
      | _ => destruct x eqn:?
      end
  end.

Ltac exec := unfold_monad; repeat (case_stuck; unfold_monad).

(** Membership in an explicit trace that holds no such event. *)
Ltac refute_in H :=
  simpl in H; repeat (destruct H as [H|H]; [try discriminate H|]);
  try contradiction.

(** ** The monad's exception handling *)

(** A handler that only logs turns every outcome of the body into a
    normal return. *)
Lemma try_except_logged (body : M unit) (fmt : string) (args : exn → list string)
    (w : World) :
  outcome (try_except body (λ e, logger_error fmt (args e)) w) = Ok tt.
Proof.
  unfold try_except. destruct (body w) as [[[]|e] w1 evs1]; reflexivity.
Qed.

Lemma any_human_spec (ms : list User) :
  any_human ms = true ↔ ∃ m, m ∈ ms ∧ bot m = false.
Proof.
  unfold any_human. rewrite existsb_exists. split.
  - intros (m & Hin & Hb). exists m. split; [by apply list_elem_of_In|].
    by destruct (bot m).
  - intros (m & Hin & Hb). exists m. split; [by apply list_elem_of_In|].
    by rewrite Hb.
Qed.

Lemma members_eq_singleton (ms : list User) (b : User) :
  members_eq ms [b] = true ↔ ∃ u, ms = [u] ∧ user_id u = user_id b.
Proof.
  split.
  - destruct ms as [|u [|u' ms]]; simpl; try discriminate.
    + rewrite andb_true_r. intros H%Z.eqb_eq. by exists u.
    + rewrite andb_false_r. discriminate.
  - intros (u & -> & Hid). simpl. rewrite andb_true_r. by apply Z.eqb_eq.
Qed.

(** ** The presence trigger *)

(** C8: whatever the event and whatever the collaborators answer, the
    voice-state handler returns normally; and when a call made by the
    handler (connect, start or stop of the recording) was answered with an
    exception, that exception is logged by the handler's top-level
    [except] clause. *)
Theorem on_voice_state_update_never_raises
    (env : Env) (member : Member) (before after : VoiceState) (w : World) :
  let r := on_voice_state_update env member before after w in
  outcome r = Ok tt
  ∧ ∀ ev e, In ev (events r) → raised env ev = Some e →
      In (Log ERROR "Error in on_voice_state_update: %s" [e]) (events r).
Proof.
  intros r. subst r. unfold on_voice_state_update.
  split; [apply (try_except_logged _ _ (λ e, [e]))|].
  destruct before as [[b|]], after as [[a|]]; exec.
  all: intros ev e' Hin Hr; simpl in Hin.
  all: repeat (destruct Hin as [<-|Hin]; [simpl in Hr|]); try contradiction.
  all: try discriminate Hr.
  all: repeat match goal with
              | H : ?x = _, Hr : context [?x] |- _ => rewrite H in Hr
              end; simpl in Hr; try discriminate Hr.
  all: injection Hr as <-; simpl; auto 10.
Qed.

Lemma auto_start_decide (w : World) (g : Guild) (ch : VoiceChannel) :
  auto_start w g ch ↔
  bool_decide (vchan_id ch ∈ allowed_voice_channels w) = true
  ∧ bool_decide (connections w !! guild_id g = None) = true
  ∧ any_human (members ch) = true.
Proof.
  unfold auto_start.
  by rewrite !bool_decide_eq_true, any_human_spec.
Qed.

(** What a join does, by cases on the three tests of the handler. *)
Lemma join_run (env : Env) (member : Member) (ch : VoiceChannel) (w : World) :
  let g := guild member in
  let dest := get_channel g (SUMMARY_CHANNEL_ID w) in
  let r := on_voice_state_update env member
             {| channel := None |} {| channel := Some ch |} w in
  (auto_start w g ch →
     match connect env ch with
     | Ok v =>
         final r = set_connections
                     <[guild_id g := {| vc := v; summary_channel := dest |}]> w
         ∧ In (Connect ch) (events r)
         ∧ In (StartRecording v dest) (events r)
     | Raise _ => final r = w ∧ In (Connect ch) (events r)
     end)
  ∧ (¬ auto_start w g ch → r = mkRun (Ok tt) w []).
Proof.
  intros g dest r. subst g dest r. rewrite auto_start_decide.
  unfold on_voice_state_update. exec; simpl.
  all: split; [intros (? & ? & ?) | intros Hn]; try discriminate.
  all: auto 10.
  all: exfalso; apply Hn; auto.
Qed.

(** C4: on a join (no previous channel, a new channel), the handler
    connects to the joined channel exactly when that channel is in the
    allowed list, the guild has no session and some member of the channel
    is not a bot.  When it does and the connection is made, the session it
    registers holds the new voice client and, as destination, the channel
    found for the configured summary channel id, and the recording is
    started towards that destination.  When it does not, nothing is called
    and nothing changes; in particular a channel of bots only starts no
    session. *)
Theorem join_starts_session_iff
    (env : Env) (member : Member) (ch : VoiceChannel) (w : World) :
  let g := guild member in
  let dest := get_channel g (SUMMARY_CHANNEL_ID w) in
  let r := on_voice_state_update env member
             {| channel := None |} {| channel := Some ch |} w in
  (In (Connect ch) (events r) ↔ auto_start w g ch)
  ∧ (∀ v, connect env ch = Ok v →
       (connections (final r) =
          <[guild_id g := {| vc := v; summary_channel := dest |}]> (connections w)
        ∧ In (StartRecording v dest) (events r))
       ↔ auto_start w g ch)
  ∧ (¬ auto_start w g ch → final r = w ∧ events r = [])
  ∧ ((∀ m, m ∈ members ch → bot m = true) → final r = w ∧ events r = []).
Proof.
  intros g dest r.
  destruct (join_run env member ch w) as [Hyes Hno]. fold g dest r in Hyes, Hno.
  assert (Hdec : auto_start w g ch ∨ ¬ auto_start w g ch).
  { rewrite auto_start_decide.
    destruct (bool_decide (vchan_id ch ∈ allowed_voice_channels w)),
             (bool_decide (connections w !! guild_id g = None)),
             (any_human (members ch)); intuition congruence. }
  assert (Hquiet : ¬ auto_start w g ch → final r = w ∧ events r = []).
  { intros Hn. by rewrite (Hno Hn). }
  split; [|split; [|split]].
  - split.
    + intros Hin. destruct Hdec as [|Hn]; [done|].
      apply Hquiet in Hn as [_ Hev]. rewrite Hev in Hin. destruct Hin.
    + intros Ha. specialize (Hyes Ha). destruct (connect env ch); tauto.
  - intros v Hv. split.
    + intros [_ Hin]. destruct Hdec as [|Hn]; [done|].
      apply Hquiet in Hn as [_ Hev]. rewrite Hev in Hin. destruct Hin.
    + intros Ha. specialize (Hyes Ha). rewrite Hv in Hyes.
      destruct Hyes as (-> & _ & Hin). done.
  - exact Hquiet.
  - intros Hbots. apply Hquiet.
    intros (_ & _ & m & Hin & Hb). apply Hbots in Hin. congruence.
Qed.

(** ** The session registry *)

(** [record] changes the module state only by registering the session of a
    connection it has just made. *)
Lemma record_state (env : Env) (ctx : Context) (w : World) :
  final (record env ctx w) = w
  ∨ ∃ vs ch v, voice ctx = Some vs ∧ channel vs = Some ch ∧ connect env ch = Ok v
      ∧ final (record env ctx w) =
          set_connections
            <[guild_id (ctx_guild ctx) :=
                {| vc := v; summary_channel := Some (ctx_channel ctx) |}]> w.
Proof.
  unfold record. destruct (voice ctx) as [[[ch|]]|]; exec; simpl; auto.
  all: right; exists {| channel := Some ch |}, ch; eauto.
Qed.

(** C1, as the code has it: the registry is a dictionary, so a guild id
    has at most one session.  A join into a guild that already has a
    session calls nothing and changes nothing, and reports no error.  A
    [record] command whose connection is not made leaves the state, hence
    the session, as it was. *)
Theorem active_session_kept (env : Env) (w : World) (gid : Z) (s : Session) :
  connections w !! gid = Some s →
  (∀ s', connections w !! gid = Some s' → s' = s)
  ∧ (∀ member ch, guild_id (guild member) = gid →
       on_voice_state_update env member
         {| channel := None |} {| channel := Some ch |} w = mkRun (Ok tt) w [])
  ∧ (∀ ctx, guild_id (ctx_guild ctx) = gid →
       (∀ vs ch, voice ctx = Some vs → channel vs = Some ch →
                 ∃ e, connect env ch = Raise e) →
       final (record env ctx w) = w
       ∧ ∀ v dest, ¬ In (StartRecording v dest) (events (record env ctx w))).
Proof.
  intros Hs. split; [|split].
  - intros s' Hs'. congruence.
  - intros member ch <-.
    apply (join_run env member ch w).
    intros (_ & Hnone & _). congruence.
  - intros ctx _ Hfail. split.
    + destruct (record_state env ctx w) as [|(vs & ch & v & Hv & Hc & Hok & _)]; [done|].
      destruct (Hfail vs ch Hv Hc) as [e He]. congruence.
    + intros v dest. unfold record.
      destruct (voice ctx) as [[[ch|]]|] eqn:Hv; exec; simpl.
      all: try (destruct (Hfail _ ch eq_refl eq_refl) as [e' He']; congruence).
      all: intros H; repeat (destruct H as [H|H]; [discriminate H|]); contradiction.
Qed.

Lemma active_session_kept_witness :
  on_voice_state_update fair alice_in_town
    {| channel := None |} {| channel := Some (lobby [alice]) |} busy
  = mkRun (Ok tt) busy [].
Proof.
  assert (H : connections busy !! 7 = Some first_session) by reflexivity.
  exact (proj1 (proj2 (active_session_kept fair busy 7 first_session H))
           alice_in_town (lobby [alice]) eq_refl).
Defined.

(** C1 as stated fails for the manual start: with a session registered
    for the guild and a connection that is made, [record] returns normally
    and the registry holds the new voice client and the invoking channel
    in place of the original session. *)
Lemma record_replaces_active_session :
  connections busy !! guild_id (ctx_guild alice_asks) = Some first_session
  ∧ outcome (record fair alice_asks busy) = Ok tt
  ∧ connections (final (record fair alice_asks busy)) !! guild_id (ctx_guild alice_asks)
    = Some {| vc := handle 2; summary_channel := Some general |}
  ∧ connections (final (record fair alice_asks busy)) !! guild_id (ctx_guild alice_asks)
    ≠ Some first_session.
Proof.
  split; [reflexivity|]. split; [reflexivity|]. split; [reflexivity|].
  vm_compute. discriminate.
Qed.

(** An event with a previous channel, in a guild without a session, calls
    nothing and changes nothing. *)
Lemma leave_without_session
    (env : Env) (member : Member) (before after : VoiceState) (w : World) :
  channel before ≠ None →
  connections w !! guild_id (guild member) = None →
  on_voice_state_update env member before after w = mkRun (Ok tt) w [].
Proof.
  intros Hb Hnone. unfold on_voice_state_update.
  destruct before as [[b|]]; [|done]. destruct after as [[a|]].
  all: exec; try reflexivity; congruence.
Qed.

(** C5: in a guild with a session, an event whose previous channel is
    allowed and now holds the bot alone, and whose [stop_recording()] call
    returns, stops the session's voice client once and deletes the guild
    from the registry.  Any later event of that guild with a previous
    channel, whatever the collaborators answer, then stops nothing and
    leaves the state alone. *)
Theorem auto_stop_exactly_once
    (env : Env) (member : Member) (before after : VoiceState)
    (ch : VoiceChannel) (s : Session) (w : World) :
  channel before = Some ch →
  vchan_id ch ∈ allowed_voice_channels w →
  (∃ u, members ch = [u] ∧ user_id u = user_id (me (guild member))) →
  connections w !! guild_id (guild member) = Some s →
  vc_stop_recording env (vc s) = Ok tt →
  let r := on_voice_state_update env member before after w in
  outcome r = Ok tt
  ∧ stops (events r) = [vc s]
  ∧ connections (final r) = delete (guild_id (guild member)) (connections w)
  ∧ ∀ env' member' before' after',
      guild_id (guild member') = guild_id (guild member) →
      channel before' ≠ None →
      let r' := on_voice_state_update env' member' before' after' (final r) in
      outcome r' = Ok tt ∧ stops (events r') = [] ∧ final r' = final r.
Proof.
  intros Hb Hallowed Halone Hs Hstop r.
  apply (bool_decide_eq_true_2 _) in Hallowed.
  apply members_eq_singleton in Halone.
  assert (Hr : r = mkRun (Ok tt)
                 (set_connections (delete (guild_id (guild member))) w)
                 [Log INFO "Auto-stop: Only bot left in %s. Stopping recording..."
                      [vchan_name ch];
                  StopRecording (vc s);
                  Log INFO "Auto-recording stopped in %s" [vchan_name ch]]).
  { subst r. unfold on_voice_state_update.
    destruct before as [b]; simpl in Hb; subst b.
    destruct after as [[a|]].
    all: unfold_monad; rewrite Hallowed; unfold_monad.
    all: rewrite Halone; unfold_monad; rewrite Hs; unfold_monad.
    all: rewrite Hstop; reflexivity. }
  rewrite Hr. simpl. split; [done|]. split; [done|]. split; [done|].
  intros env' member' before' after' Hguild Hb'.
  rewrite (leave_without_session env' member' before' after'); [done|done|].
  simpl. rewrite Hguild. apply lookup_delete_eq.
Qed.

Lemma auto_stop_exactly_once_witness :
  let r := on_voice_state_update fair alice_in_town recorder_alone gone busy in
  stops (events r) = [handle 1]
  ∧ connections (final r) = ∅
  ∧ stops (events (on_voice_state_update fair alice_in_town recorder_alone gone (final r))) = [].
Proof.
  assert (Hin : vchan_id (lobby [recorder]) ∈ allowed_voice_channels busy)
    by (vm_compute; constructor).
  assert (Halone : ∃ u, members (lobby [recorder]) = [u]
                        ∧ user_id u = user_id (me (guild alice_in_town)))
    by (exists recorder; split; reflexivity).
  pose proof (auto_stop_exactly_once fair alice_in_town recorder_alone gone
                (lobby [recorder]) first_session busy
                eq_refl Hin Halone eq_refl eq_refl) as (_ & Hstops & Hconn & Hnext).
  split; [exact Hstops|]. split; [exact Hconn|].
  refine (proj1 (proj2 (Hnext fair alice_in_town recorder_alone gone eq_refl _))).
  discriminate.
Defined.

(** ** The configuration store *)

Section SetterProperties.

Variable int : string → result Z.

Lemma ints_run (channel_ids : list string) (w : World) :
  ints int channel_ids w = mkRun (converted int channel_ids) w [].
Proof.
  induction channel_ids as [|cid rest IH]; [reflexivity|].
  simpl. unfold_monad. destruct (int cid) as [n|e]; [|reflexivity].
  rewrite IH. by destruct (converted int rest).
Qed.

Lemma converted_all (channel_ids : list string) (l : list Z) :
  Forall2 (λ cid n, int cid = Ok n) channel_ids l ↔ converted int channel_ids = Ok l.
Proof.
  revert l. induction channel_ids as [|cid rest IH]; intros l; simpl.
  - split; [by inversion 1|]. intros [= <-]. constructor.
  - split.
    + inversion 1 as [|? n ? more Hn Hrest]; subst. rewrite Hn.
      apply IH in Hrest. by rewrite Hrest.
    + destruct (int cid) as [n|e] eqn:Hn; [|discriminate].
      destruct (converted int rest) as [more|e] eqn:Hrest; [|discriminate].
      intros [= <-]. constructor; [done|]. by apply IH.
Qed.

Lemma converted_some_invalid (channel_ids : list string) :
  (∃ cid e, cid ∈ channel_ids ∧ int cid = Raise e) ↔ ∃ e, converted int channel_ids = Raise e.
Proof.
  induction channel_ids as [|cid rest IH]; simpl.
  - split; [intros (? & ? & []%elem_of_nil & _) | intros [? [=]]].
  - split.
    + intros (c & e & Hin & He). destruct (int cid) as [n|e'] eqn:Hn; [|by eexists].
      apply elem_of_cons in Hin as [->|Hin]; [congruence|].
      destruct (proj1 IH) as [e'' ->]; [by exists c, e|]. by eexists.
    + intros [e He]. destruct (int cid) as [n|e'] eqn:Hn.
      * destruct (converted int rest) as [more|e''] eqn:Hrest; [discriminate|].
        destruct (proj2 IH) as (c & e1 & Hin & Hc); [by eexists|].
        exists c, e1. split; [by apply list_elem_of_further|done].
      * exists cid, e'. split; [by apply list_elem_of_here|done].
Qed.

(** C7: when some token of the input does not convert, the command
    changes nothing (neither the list in memory, nor the [config]
    dictionary, nor the file, which it does not open), logs the error and
    answers with the invalid-channel message.  When every token converts,
    the list in memory and the entry of [config] are replaced by the
    converted ids, the document is dumped, and it is on disk as soon as the
    file system accepts the write. *)
Theorem set_auto_record_channels_all_or_nothing
    (env : Env) (ctx : Context) (channel_ids : list string) (w : World) :
  let r := set_auto_record_channels int env ctx channel_ids w in
  ((∃ cid e, cid ∈ channel_ids ∧ int cid = Raise e) →
     final r = w
     ∧ (∃ e, In (Log ERROR "Invalid channel ID provided: %s" [e]) (events r))
     ∧ sends (events r)
       = [(ctx_channel ctx, "Invalid channel ID provided in one or more inputs!")]
     ∧ ¬ In OpenConfig (events r))
  ∧ (∀ l, Forall2 (λ cid n, int cid = Ok n) channel_ids l →
     allowed_voice_channels (final r) = l
     ∧ config (final r) = <["allowed_voice_channels" := VList l]> (config w)
     ∧ (open_config env = Ok tt →
        In (DumpConfig (config (final r))) (events r)
        ∧ (json_dump env (config (final r)) = Ok tt →
           config_file (final r) = Holds (config (final r))))).
Proof.
  intros r. subst r. unfold set_auto_record_channels, dump_config. split.
  - intros [e He]%converted_some_invalid.
    unfold_monad. rewrite ints_run, He. exec; simpl.
    all: repeat split; eauto; intros H; repeat destruct H as [H|H]; done.
  - intros l Hl%converted_all.
    unfold_monad. rewrite ints_run, Hl. exec; simpl.
    all: repeat split; intros; simpl in *; auto 10; congruence.
Qed.

(** C9: a setter that reports success has, just before, opened the file
    and dumped the whole [config] dictionary into it; the file then holds
    exactly the dictionary in memory, the entry set by the command equals
    its global, and globals that mirrored the dictionary before the call
    still do. *)
Theorem successful_setter_synchronized
    (env : Env) (ctx : Context) (c : setter) (w : World) :
  let r := run_setter int env ctx c w in
  In (Send (ctx_channel ctx) (success_reply c (final r))) (events r) →
  config_file (final r) = Holds (config (final r))
  ∧ entry_written c (final r)
  ∧ (∃ earlier, events r =
       earlier ++ [OpenConfig; DumpConfig (config (final r));
                   Send (ctx_channel ctx) (success_reply c (final r))])
  ∧ (mirrors w → mirrors (final r)).
Proof.
  intros r. subst r.
  destruct c as [channel_id|channel_id|channel_ids]; simpl.
  - unfold set_summary_channel, dump_config. exec; simpl; intros Hin.
    all: try (refute_in Hin; fail).
    all: split; [reflexivity|]; split; [apply lookup_insert_eq|].
    all: split; [by eexists [_]|].
    all: unfold mirrors; simpl; rewrite lookup_insert_eq.
    all: rewrite !lookup_insert_ne by done; tauto.
  - unfold set_transcript_channel, dump_config. exec; simpl; intros Hin.
    all: try (refute_in Hin; fail).
    all: split; [reflexivity|]; split; [apply lookup_insert_eq|].
    all: split; [by eexists [_]|].
    all: unfold mirrors; simpl; rewrite lookup_insert_eq.
    all: rewrite !lookup_insert_ne by done; tauto.
  - unfold set_auto_record_channels, dump_config.
    unfold_monad. rewrite ints_run. exec; simpl; intros Hin.
    all: try (refute_in Hin; fail).
    all: split; [reflexivity|]; split; [apply lookup_insert_eq|].
    all: split; [by eexists [_]|].
    all: unfold mirrors; simpl; rewrite lookup_insert_eq.
    all: rewrite !lookup_insert_ne by done; tauto.
Qed.

End SetterProperties.

(** ** The completion pipeline *)

Lemma transcribe_one_run (env : Env) (user_id : Z) (audio : AudioData) (w : World) :
  ∃ evs, transcribe_one env user_id audio w
         = mkRun (Ok (text_for env user_id audio)) w evs
         ∧ Forall transcription_event evs.
Proof.
  unfold transcribe_one, text_for. exec; simpl.
  all: eexists; split; [reflexivity|].
  all: repeat constructor.
Qed.

(** The loop never raises and leaves the state alone, whatever the three
    calls answer for each speaker. *)
Lemma transcribe_all_run (env : Env) (items : list (Z * AudioData)) (w : World) :
  ∃ evs, transcribe_all env items w = mkRun (Ok (transcripts_of env items)) w evs
         ∧ Forall transcription_event evs.
Proof.
  induction items as [|[user_id audio] rest IH]; simpl.
  - exists []. split; [reflexivity|constructor].
  - destruct (transcribe_one_run env user_id audio w) as (evs1 & H1 & Hev1).
    destruct IH as (evs2 & H2 & Hev2).
    unfold_monad. rewrite H1, H2. simpl.
    eexists. split; [reflexivity|].
    rewrite app_nil_r. by apply Forall_app.
Qed.

Lemma transcription_event_not (evs : list Event) (ev : Event) :
  Forall transcription_event evs → ¬ transcription_event ev → ¬ In ev evs.
Proof.
  intros Hall Hnot Hin. apply Hnot.
  rewrite Forall_forall in Hall. apply Hall. by apply list_elem_of_In.
Qed.

(** Membership in the trace of a run whose middle part is the loop. *)
Ltac split_in H :=
  simpl in H;
  repeat first
    [ destruct H as [H|H]; [try discriminate H|]
    | apply in_app_or in H; destruct H as [H|H] ];
  try contradiction.

(** An event that is in plain sight in the trace. *)
Ltac find_in := simpl; rewrite ?in_app_iff; simpl; solve [intuition congruence].

Ltac not_in_loop :=
  match goal with
  | Hall : Forall transcription_event ?evs, H : In _ ?evs |- _ =>
      exfalso; revert H; apply (transcription_event_not _ _ Hall); simpl;
      first [tauto | discriminate]
  end.

Ltac units := repeat match goal with u : unit |- _ => destruct u end.

(** The start of every run of the pipeline: either the disconnection
    raised, or the loop over the speakers follows and leaves its
    transcripts; then the cases of what the later calls answer. *)
Ltac enter_pipeline env sink w evs Hall :=
  unfold once_done; unfold_monad;
  destruct (vc_disconnect env (sink_vc sink)) as [[]|?] eqn:?;
  [ destruct (transcribe_all_run env (audio_data sink) w) as (evs & -> & Hall);
    exec; units; simpl
  | simpl ].

(** C2: when the summarization call of a run is answered with an
    exception, the run sends no message at all (neither summary nor
    transcript), logs the exception as the failure of the run, and
    returns. *)
Theorem summarization_failure_posts_nothing
    (env : Env) (sink : Sink) (channel : option TextChannel) (w : World)
    (t : string) (e : exn) :
  let r := once_done env sink channel w in
  In (Summarize t) (events r) →
  acreate env t = Raise e →
  outcome r = Ok tt
  ∧ final r = w
  ∧ (∀ c msg, ¬ In (Send c msg) (events r))
  ∧ In (Log ERROR "Error in once_done: %s" [e]) (events r).
Proof.
  intros r. subst r. enter_pipeline env sink w evs Hall.
  all: intros Hin Ht; split_in Hin; try not_in_loop.
  all: injection Hin as <-; try congruence.
  repeat split.
  - intros c msg Hs. split_in Hs. not_in_loop.
  - find_in.
Qed.

Lemma text_for_cases (env : Env) (user_id : Z) (audio : AudioData) :
  (∀ e, write_temp env user_id audio = Raise e →
        text_for env user_id audio = sentinel)
  ∧ (∀ path e, write_temp env user_id audio = Ok path →
        whisper env path = Raise e → text_for env user_id audio = sentinel)
  ∧ (∀ path e, write_temp env user_id audio = Ok path →
        os_remove env path = Raise e → text_for env user_id audio = sentinel)
  ∧ (∀ path response, write_temp env user_id audio = Ok path →
        whisper env path = Ok response → os_remove env path = Ok tt →
        text_for env user_id audio = default "" response).
Proof.
  unfold text_for. repeat split.
  - by intros e ->.
  - by intros path e -> ->.
  - intros path e -> ->. by destruct (whisper env path).
  - by intros path response -> -> ->.
Qed.

(** C3: once the voice client is disconnected, the run calls the
    summarization service on the transcript assembled from one entry per
    speaker, in the order of the captured set.  The entry of a speaker
    whose transcription call raised is the sentinel text (and so is the
    entry of a speaker whose temporary file could not be written or
    removed); the entry of a speaker whose attempt went through is the
    text of the service's response.  No answer for one speaker changes the
    entry of another or stops the run before the summarization call. *)
Theorem failed_speaker_gets_sentinel
    (env : Env) (sink : Sink) (channel : option TextChannel) (w : World) :
  vc_disconnect env (sink_vc sink) = Ok tt →
  let r := once_done env sink channel w in
  ∃ transcripts,
    In (Summarize (final_transcript transcripts)) (events r)
    ∧ List.length transcripts = List.length (audio_data sink)
    ∧ ∀ (i : nat) user_id audio,
        audio_data sink !! i = Some (user_id, audio) →
        ∃ text,
          transcripts !! i = Some (user_id, text)
          ∧ (∀ path e, write_temp env user_id audio = Ok path →
               whisper env path = Raise e → text = sentinel)
          ∧ (∀ e, write_temp env user_id audio = Raise e → text = sentinel)
          ∧ (∀ path e, write_temp env user_id audio = Ok path →
               os_remove env path = Raise e → text = sentinel)
          ∧ (∀ path response, write_temp env user_id audio = Ok path →
               whisper env path = Ok response → os_remove env path = Ok tt →
               text = default "" response).
Proof.
  intros Hd r. exists (transcripts_of env (audio_data sink)). split; [|split].
  - subst r. unfold once_done. unfold_monad. rewrite Hd.
    destruct (transcribe_all_run env (audio_data sink) w) as (evs & -> & Hall).
    exec; find_in.
  - unfold transcripts_of. apply length_map.
  - intros i user_id audio Hi. exists (text_for env user_id audio). split.
    + unfold transcripts_of. rewrite list_lookup_fmap, Hi. reflexivity.
    + destruct (text_for_cases env user_id audio) as (H1 & H2 & H3 & H4).
      repeat split; eauto.
Qed.

(** C6: in a run that finds no channel for the configured transcript
    channel id, the run returns; when its summarization call succeeded and
    there is a destination channel, the summary message is sent there, and
    once that post has gone through the missing transcript channel is
    logged and the run is not logged as failed; every message the run
    sends is the summary to the destination, so the transcript post alone
    is skipped. *)
Theorem unresolved_transcript_channel_keeps_summary
    (env : Env) (sink : Sink) (channel : option TextChannel) (w : World) :
  bot_get_channel env (TRANSCRIPT_CHANNEL_ID w) = None →
  let r := once_done env sink channel w in
  let users := map (λ item, mention (fst item)) (audio_data sink) in
  outcome r = Ok tt
  ∧ (∀ transcript summary dest,
       In (Summarize transcript) (events r) → acreate env transcript = Ok summary →
       channel = Some dest →
       In (Send dest (summary_message (now env) users summary)) (events r)
       ∧ (send env dest (summary_message (now env) users summary) = Ok tt →
          In (Log ERROR "Transcript channel not found!" []) (events r)
          ∧ ∀ e, ¬ In (Log ERROR "Error in once_done: %s" [e]) (events r)))
  ∧ (∀ c msg, In (Send c msg) (events r) →
       channel = Some c
       ∧ ∃ summary, msg = summary_message (now env) users summary).
Proof.
  intros Hnone r users. subst r users.
  enter_pipeline env sink w evs Hall.
  all: split; [reflexivity|split].
  all: try (intros c msg Hs; split_in Hs; try not_in_loop;
            injection Hs as <- <-; eauto; fail).
  all: try congruence.
  all: intros transcript summary dest Hin Ht Hc; split_in Hin; try not_in_loop.
  all: injection Hin as <-; try congruence.
  all: injection Hc as <-.
  all: match goal with
       | H : acreate _ _ = Ok _ |- _ => rewrite Ht in H; injection H as <-
       end.
  all: split; [find_in|].
  all: intros Hsend; try congruence.
  split; [find_in|].
  intros e He. split_in He. not_in_loop.
Qed.

(** C10: a join that meets the conditions of the automatic start, with a
    connection that is made and a summary channel id for which the guild
    has no channel, registers the session with no destination and starts
    the recording towards no destination; nothing is logged as an error
    when the recording starts.  The pipeline run with that absent
    destination sends nothing and returns; when it gets as far as a
    successful summarization, the error it logs is the failed attribute
    access on the absent channel. *)
Theorem auto_start_with_unresolved_summary_channel
    (env : Env) (member : Member) (ch : VoiceChannel) (w : World) (v : VoiceClient) :
  auto_start w (guild member) ch →
  connect env ch = Ok v →
  get_channel (guild member) (SUMMARY_CHANNEL_ID w) = None →
  let r := on_voice_state_update env member
             {| channel := None |} {| channel := Some ch |} w in
  connections (final r) !! guild_id (guild member)
    = Some {| vc := v; summary_channel := None |}
  ∧ In (StartRecording v None) (events r)
  ∧ (vc_start_recording env v None = Ok tt →
     ∀ fmt args, ¬ In (Log ERROR fmt args) (events r))
  ∧ ∀ env' sink w',
      let r' := once_done env' sink None w' in
      outcome r' = Ok tt
      ∧ (∀ c msg, ¬ In (Send c msg) (events r'))
      ∧ (∀ transcript summary,
           In (Summarize transcript) (events r') →
           acreate env' transcript = Ok summary →
           In (Log ERROR "Error in once_done: %s"
                 ["'NoneType' object has no attribute 'send'"]) (events r')).
Proof.
  intros Hstart Hv Hdest r. split; [|split; [|split]].
  - destruct (join_run env member ch w) as [Hyes _].
    specialize (Hyes Hstart). rewrite Hv, Hdest in Hyes.
    destruct Hyes as (Hfinal & _). subst r. rewrite Hfinal. simpl.
    apply lookup_insert_eq.
  - destruct (join_run env member ch w) as [Hyes _].
    specialize (Hyes Hstart). rewrite Hv, Hdest in Hyes. tauto.
  - intros Hrec fmt args. subst r.
    apply auto_start_decide in Hstart as (Ha & Hc & Hh).
    unfold on_voice_state_update. unfold_monad. rewrite Ha. unfold_monad.
    rewrite Hc, Hh. unfold_monad. rewrite Hv. unfold_monad.
    rewrite Hdest, Hrec. simpl. intros Hin. refute_in Hin.
  - intros env' sink w' r'. subst r'.
    enter_pipeline env' sink w' evs Hall.
    all: split; [reflexivity|split].
    all: try (intros c msg Hs; split_in Hs; not_in_loop).
    all: intros transcript summary Hin Ht; split_in Hin; try not_in_loop.
    all: try (injection Hin as <-; congruence).
    find_in.
Qed.

(** ** Runs on the sample guild *)

(** A join into a channel of bots starts nothing; the next join, by a
    person, starts the recording towards the summary channel. *)
Example join_of_a_bot_starts_nothing :
  on_voice_state_update fair {| member_user := jukebox; guild := town |}
    gone {| channel := Some (lobby [recorder; jukebox]) |} idle
  = mkRun (Ok tt) idle [].
Proof. reflexivity. Qed.

Example join_of_a_person_starts_recording :
  connections
    (final (on_voice_state_update fair alice_in_town
              gone {| channel := Some (lobby [recorder; jukebox; alice]) |} idle)) !! 7
  = Some {| vc := handle 2; summary_channel := Some notes |}.
Proof. reflexivity. Qed.

Example transcripts_with_one_failure :
  outcome (transcribe_all (studio hard_of_hearing (Ok (Some "minutes")) (get_channel town))
             (audio_data tape) idle)
  = Ok [(2, "hello everyone"); (4, "[Error transcribing audio]")].
Proof. reflexivity. Qed.

Example py_int_accepts :
  py_int " 42 " = Ok 42 ∧ py_int "-7" = Ok (-7) ∧ py_int "1_000" = Ok 1000
  ∧ py_int "0201" = Ok 201.
Proof. repeat split; reflexivity. Qed.

Example py_int_rejects :
  answer_exn (py_int "lobby") = Some "invalid literal for int() with base 10: 'lobby'"
  ∧ answer_exn (py_int "") ≠ None ∧ answer_exn (py_int "1__0") ≠ None
  ∧ answer_exn (py_int "12_") ≠ None ∧ answer_exn (py_int "+") ≠ None
  ∧ answer_exn (py_int "4 2") ≠ None.
Proof. repeat split; vm_compute; congruence. Qed.

Example final_transcript_of_two :
  final_transcript [(2, "hi"); (4, "bye ")]
  = "Speaker <@2>: hi" +:+ newline +:+ newline +:+ "Speaker <@4>: bye".
Proof. reflexivity. Qed.

Ltac in_explicit := vm_compute; repeat first [left; reflexivity | right].

Lemma summarization_failure_posts_nothing_witness :
  let r := once_done (studio hard_of_hearing (Raise "overloaded") (get_channel town))
             tape (Some notes) idle in
  outcome r = Ok tt
  ∧ final r = idle
  ∧ (∀ c msg, ¬ In (Send c msg) (events r))
  ∧ In (Log ERROR "Error in once_done: %s" ["overloaded"]) (events r).
Proof.
  apply (summarization_failure_posts_nothing
           (studio hard_of_hearing (Raise "overloaded") (get_channel town))
           tape (Some notes) idle
           (final_transcript [(2, "hello everyone"); (4, sentinel)]) "overloaded").
  - in_explicit.
  - reflexivity.
Defined.

Lemma failed_speaker_gets_sentinel_witness :
  let env := studio hard_of_hearing (Ok (Some "minutes")) (get_channel town) in
  let r := once_done env tape (Some notes) idle in
  ∃ transcripts,
    In (Summarize (final_transcript transcripts)) (events r)
    ∧ List.length transcripts = List.length (audio_data tape)
    ∧ ∀ (i : nat) user_id audio,
        audio_data tape !! i = Some (user_id, audio) →
        ∃ text,
          transcripts !! i = Some (user_id, text)
          ∧ (∀ path e, write_temp env user_id audio = Ok path →
               whisper env path = Raise e → text = sentinel)
          ∧ (∀ e, write_temp env user_id audio = Raise e → text = sentinel)
          ∧ (∀ path e, write_temp env user_id audio = Ok path →
               os_remove env path = Raise e → text = sentinel)
          ∧ (∀ path response, write_temp env user_id audio = Ok path →
               whisper env path = Ok response → os_remove env path = Ok tt →
               text = default "" response).
Proof.
  exact (failed_speaker_gets_sentinel
           (studio hard_of_hearing (Ok (Some "minutes")) (get_channel town))
           tape (Some notes) idle eq_refl).
Defined.

Lemma unresolved_transcript_channel_keeps_summary_witness :
  let env := studio hard_of_hearing (Ok (Some "minutes")) (λ _, None) in
  let r := once_done env tape (Some notes) idle in
  let users := map (λ item, mention (fst item)) (audio_data tape) in
  outcome r = Ok tt
  ∧ (∀ transcript summary dest,
       In (Summarize transcript) (events r) → acreate env transcript = Ok summary →
       Some notes = Some dest →
       In (Send dest (summary_message (now env) users summary)) (events r)
       ∧ (send env dest (summary_message (now env) users summary) = Ok tt →
          In (Log ERROR "Transcript channel not found!" []) (events r)
          ∧ ∀ e, ¬ In (Log ERROR "Error in once_done: %s" [e]) (events r)))
  ∧ (∀ c msg, In (Send c msg) (events r) →
       Some notes = Some c
       ∧ ∃ summary, msg = summary_message (now env) users summary).
Proof.
  exact (unresolved_transcript_channel_keeps_summary
           (studio hard_of_hearing (Ok (Some "minutes")) (λ _, None))
           tape (Some notes) idle eq_refl).
Defined.

Lemma successful_setter_synchronized_witness :
  let r := run_setter py_int fair alice_asks (SetSummaryChannel " 200 ") idle in
  SUMMARY_CHANNEL_ID (final r) = 200
  ∧ config_file (final r) = Holds (config (final r)).
Proof.
  assert (Hsent : In (Send (ctx_channel alice_asks)
                        (success_reply (SetSummaryChannel " 200 ")
                           (final (run_setter py_int fair alice_asks
                                     (SetSummaryChannel " 200 ") idle))))
                     (events (run_setter py_int fair alice_asks
                                (SetSummaryChannel " 200 ") idle)))
    by in_explicit.
  split; [reflexivity|].
  exact (proj1 (successful_setter_synchronized py_int fair alice_asks
                  (SetSummaryChannel " 200 ") idle Hsent)).
Defined.

Lemma auto_start_with_unresolved_summary_channel_witness :
  let r := on_voice_state_update fair alice_in_town
             gone {| channel := Some (lobby [recorder; alice]) |} adrift in
  connections (final r) !! 7 = Some {| vc := handle 2; summary_channel := None |}
  ∧ In (StartRecording (handle 2) None) (events r).
Proof.
  assert (Hstart : auto_start adrift (guild alice_in_town) (lobby [recorder; alice])).
  { split; [vm_compute; constructor|]. split; [reflexivity|].
    exists alice. split; [vm_compute; repeat constructor|reflexivity]. }
  pose proof (auto_start_with_unresolved_summary_channel fair alice_in_town
                (lobby [recorder; alice]) adrift (handle 2)
                Hstart eq_refl eq_refl) as (Hreg & Hrec & _).
  split; [exact Hreg|exact Hrec].
Defined.

(** * Further properties of the code *)

(** ** Traces *)

Lemma stops_app (evs1 evs2 : list Event) :
  stops (evs1 ++ evs2) = stops evs1 ++ stops evs2.
Proof.
  induction evs1 as [|[] evs1 IH]; simpl; congruence.
Qed.

Lemma sends_app (evs1 evs2 : list Event) :
  sends (evs1 ++ evs2) = sends evs1 ++ sends evs2.
Proof.
  induction evs1 as [|[] evs1 IH]; simpl; congruence.
Qed.

Lemma summarize_calls_app (evs1 evs2 : list Event) :
  summarize_calls (evs1 ++ evs2) = summarize_calls evs1 ++ summarize_calls evs2.
Proof.
  induction evs1 as [|[] evs1 IH]; simpl; congruence.
Qed.

Lemma transcription_sends (evs : list Event) :
  Forall transcription_event evs → sends evs = [].
Proof.
  induction 1 as [|[] evs Hev _ IH]; simpl in *; done.
Qed.

Lemma transcription_summarize_calls (evs : list Event) :
  Forall transcription_event evs → summarize_calls evs = [].
Proof.
  induction 1 as [|[] evs Hev _ IH]; simpl in *; done.
Qed.

(** ** The manual commands *)

(** What [stop_recording] does in a guild that has a session. *)
Lemma stop_recording_run (env : Env) (ctx : Context) (w : World) (s : Session) :
  connections w !! guild_id (ctx_guild ctx) = Some s →
  let r := stop_recording env ctx w in
  stops (events r) = [vc s]
  ∧ (vc_stop_recording env (vc s) = Ok tt →
       final r = set_connections (delete (guild_id (ctx_guild ctx))) w
       ∧ sends (events r) = [(ctx_channel ctx, "🛑 Stopped recording.")]
       ∧ outcome r = send env (ctx_channel ctx) "🛑 Stopped recording.")
  ∧ (∀ e, vc_stop_recording env (vc s) = Raise e →
       outcome r = Raise e ∧ final r = w ∧ sends (events r) = []).
Proof.
  intros Hs r. subst r. unfold stop_recording. unfold_monad.
  rewrite Hs. exec; units; simpl.
  all: repeat split; try congruence; intros; congruence.
Qed.

(** The state that a [record] with a connection leaves. *)
Lemma record_connected_state
    (env : Env) (ctx : Context) (w : World)
    (vs : VoiceState) (ch : VoiceChannel) (v : VoiceClient) :
  voice ctx = Some vs → channel vs = Some ch → connect env ch = Ok v →
  final (record env ctx w)
  = set_connections
      <[guild_id (ctx_guild ctx) :=
          {| vc := v; summary_channel := Some (ctx_channel ctx) |}]> w.
Proof.
  intros Hv Hc Hconn. unfold record. rewrite Hv.
  destruct vs as [c]. simpl in Hc. subst c.
  unfold_monad. rewrite Hconn. exec; reflexivity.
Qed.

(** X1: [stop_recording] in a guild without a session stops nothing,
    changes nothing and answers that nothing is being recorded; the
    command ends as the sending of that answer ends. *)
Theorem stop_recording_without_session (env : Env) (ctx : Context) (w : World) :
  connections w !! guild_id (ctx_guild ctx) = None →
  let r := stop_recording env ctx w in
  final r = w
  ∧ stops (events r) = []
  ∧ sends (events r) = [(ctx_channel ctx, "🚫 Not recording here.")]
  ∧ outcome r = send env (ctx_channel ctx) "🚫 Not recording here.".
Proof.
  intros Hnone r. subst r. unfold stop_recording. unfold_monad.
  rewrite Hnone. exec; simpl; auto.
Qed.

(** X2: [stop_recording] in a guild with a session calls
    [stop_recording()] once, on the voice client of that session.  When
    the call returns, the guild and only the guild leaves the registry and
    the user is told; when it raises, the exception leaves the command,
    the session stays registered and nothing is sent. *)
Theorem stop_recording_with_session
    (env : Env) (ctx : Context) (w : World) (s : Session) :
  connections w !! guild_id (ctx_guild ctx) = Some s →
  let r := stop_recording env ctx w in
  stops (events r) = [vc s]
  ∧ (vc_stop_recording env (vc s) = Ok tt →
       final r = set_connections (delete (guild_id (ctx_guild ctx))) w
       ∧ sends (events r) = [(ctx_channel ctx, "🛑 Stopped recording.")]
       ∧ outcome r = send env (ctx_channel ctx) "🛑 Stopped recording.")
  ∧ (∀ e, vc_stop_recording env (vc s) = Raise e →
       outcome r = Raise e ∧ final r = w ∧ sends (events r) = []).
Proof.
  intros Hs. exact (stop_recording_run env ctx w s Hs).
Qed.

(** X3: [record] by a user who is in no voice channel connects to
    nothing and changes nothing: it logs the call and sends the warning. *)
Theorem record_outside_voice (env : Env) (ctx : Context) (w : World) :
  voice ctx = None →
  let r := record env ctx w in
  final r = w
  ∧ events r = [Log INFO "Record command called by %s" [author ctx];
                Send (ctx_channel ctx) "⚠️ You aren't in a voice channel!"]
  ∧ outcome r = send env (ctx_channel ctx) "⚠️ You aren't in a voice channel!".
Proof.
  intros Hv r. subst r. unfold record. rewrite Hv. exec; simpl; auto.
Qed.

(** X4: a [record] whose connection is made registers, for the guild of
    the command, the new voice client with the invoking text channel as
    destination, and starts the recording towards that channel.  When
    [start_recording] returns, the user is told; when it raises, the
    exception leaves the command with the session already registered and
    nothing sent. *)
Theorem record_registers_invoking_channel
    (env : Env) (ctx : Context) (w : World)
    (vs : VoiceState) (ch : VoiceChannel) (v : VoiceClient) :
  voice ctx = Some vs → channel vs = Some ch → connect env ch = Ok v →
  let r := record env ctx w in
  let dest := Some (ctx_channel ctx) in
  final r = set_connections
              <[guild_id (ctx_guild ctx) := {| vc := v; summary_channel := dest |}]> w
  ∧ In (StartRecording v dest) (events r)
  ∧ (vc_start_recording env v dest = Ok tt →
       sends (events r) = [(ctx_channel ctx, "🔴 Listening to this conversation.")]
       ∧ outcome r = send env (ctx_channel ctx) "🔴 Listening to this conversation.")
  ∧ (∀ e, vc_start_recording env v dest = Raise e →
       outcome r = Raise e ∧ sends (events r) = []).
Proof.
  intros Hv Hc Hconn r dest. subst r dest. unfold record. rewrite Hv.
  destruct vs as [c]. simpl in Hc. subst c.
  unfold_monad. rewrite Hconn. exec; units; simpl.
  all: repeat split; auto 10; try congruence; intros; congruence.
Qed.

(** X5: a [record] whose connection raises does not pass the exception
    on: it logs it, tells the user that the connection failed, and
    changes nothing; nothing is recorded. *)
Theorem record_connect_failure_reported
    (env : Env) (ctx : Context) (w : World)
    (vs : VoiceState) (ch : VoiceChannel) (e : exn) :
  voice ctx = Some vs → channel vs = Some ch → connect env ch = Raise e →
  let r := record env ctx w in
  final r = w
  ∧ In (Log ERROR "Error connecting to voice channel: %s" [e]) (events r)
  ∧ sends (events r) = [(ctx_channel ctx, "⚠️ Failed to connect to the voice channel.")]
  ∧ outcome r = send env (ctx_channel ctx) "⚠️ Failed to connect to the voice channel."
  ∧ ∀ v dest, ¬ In (StartRecording v dest) (events r).
Proof.
  intros Hv Hc Hconn r. subst r. unfold record. rewrite Hv.
  destruct vs as [c]. simpl in Hc. subst c.
  unfold_monad. rewrite Hconn. exec; units; simpl.
  all: repeat split; auto 10.
  all: intros v dest Hin; refute_in Hin.
Qed.

(** X6: [record] followed by [stop_recording] in the same guild stops the
    voice client that [record] connected and leaves no session for the
    guild; the configuration is as before, and so is the whole state when
    the guild had no session to begin with. *)
Theorem record_then_stop_recording
    (env env' : Env) (ctx ctx' : Context) (w : World)
    (vs : VoiceState) (ch : VoiceChannel) (v : VoiceClient) :
  voice ctx = Some vs → channel vs = Some ch → connect env ch = Ok v →
  guild_id (ctx_guild ctx') = guild_id (ctx_guild ctx) →
  vc_stop_recording env' v = Ok tt →
  let r := stop_recording env' ctx' (final (record env ctx w)) in
  stops (events r) = [v]
  ∧ connections (final r) = delete (guild_id (ctx_guild ctx)) (connections w)
  ∧ same_configuration w (final r)
  ∧ (connections w !! guild_id (ctx_guild ctx) = None → final r = w).
Proof.
  intros Hv Hc Hconn Hg Hstop r.
  pose proof (record_connected_state env ctx w vs ch v Hv Hc Hconn) as Hfinal.
  destruct (stop_recording_run env' ctx' (final (record env ctx w))
              {| vc := v; summary_channel := Some (ctx_channel ctx) |})
    as (Hstops & Hok & _).
  { rewrite Hfinal, Hg. simpl. apply lookup_insert_eq. }
  destruct (Hok Hstop) as (Hfinal' & _).
  split; [exact Hstops|]. subst r. rewrite Hfinal', Hfinal, Hg. simpl.
  split; [apply delete_insert_eq|]. split; [done|].
  intros Hnone. destruct w; unfold set_connections; simpl in *. f_equal.
  rewrite delete_insert_eq. by apply delete_id.
Qed.

(** ** The presence trigger, beyond the start and the stop *)

Lemma bot_alone_decide (g : Guild) (ch : VoiceChannel) :
  bot_alone g ch ↔ members_eq (members ch) [me g] = true.
Proof. unfold bot_alone. symmetry. apply members_eq_singleton. Qed.

(** What an event with a previous channel does, by cases on the three
    tests of the second block of the handler and on the answer to
    [stop_recording()]. *)
Lemma leave_run (env : Env) (member : Member) (before after : VoiceState)
    (ch : VoiceChannel) (w : World) :
  channel before = Some ch →
  let g := guild member in
  let r := on_voice_state_update env member before after w in
  (∀ s, vchan_id ch ∈ allowed_voice_channels w → bot_alone g ch →
        connections w !! guild_id g = Some s →
        match vc_stop_recording env (vc s) with
        | Ok _ =>
            r = mkRun (Ok tt) (set_connections (delete (guild_id g)) w)
                  [Log INFO "Auto-stop: Only bot left in %s. Stopping recording..."
                       [vchan_name ch];
                   StopRecording (vc s);
                   Log INFO "Auto-recording stopped in %s" [vchan_name ch]]
        | Raise e =>
            r = mkRun (Ok tt) w
                  [Log INFO "Auto-stop: Only bot left in %s. Stopping recording..."
                       [vchan_name ch];
                   StopRecording (vc s);
                   Log ERROR "Error in on_voice_state_update: %s" [e]]
        end)
  ∧ (vchan_id ch ∉ allowed_voice_channels w ∨ ¬ bot_alone g ch
     ∨ connections w !! guild_id g = None →
     r = mkRun (Ok tt) w []).
Proof.
  intros Hb g r. subst g r.
  destruct before as [b]. simpl in Hb. subst b.
  split.
  - intros s Hallowed Halone Hs. apply (bool_decide_eq_true_2 _) in Hallowed.
    apply bot_alone_decide in Halone.
    unfold on_voice_state_update.
    destruct after as [[a|]].
    all: unfold_monad; rewrite Hallowed; unfold_monad.
    all: rewrite Halone; unfold_monad; rewrite Hs; unfold_monad.
    all: destruct (vc_stop_recording env (vc s)) as [[]|e]; reflexivity.
  - intros Hquiet. unfold on_voice_state_update.
    destruct after as [[a|]]; exec; try reflexivity.
    all: exfalso; destruct Hquiet as [Hq|[Hq|Hq]]; [| |congruence].
    all: first [ apply Hq; apply bot_alone_decide; assumption
               | match goal with
                 | H : bool_decide _ = true |- _ => apply bool_decide_eq_true in H
                 end; done ].
Qed.

(** X7: the handler ignores every event that is neither a join nor a
    departure that leaves the bot alone in an allowed channel of a guild
    with a session.  An event without channels, and an event whose
    previous channel is not allowed, or holds somebody besides the bot, or
    belongs to a guild without a session, calls nothing, logs nothing and
    changes nothing. *)
Theorem ignored_voice_state_updates
    (env : Env) (member : Member) (before after : VoiceState) (w : World) :
  let g := guild member in
  let r := on_voice_state_update env member before after w in
  (channel before = None → channel after = None → r = mkRun (Ok tt) w [])
  ∧ (∀ ch, channel before = Some ch →
       vchan_id ch ∉ allowed_voice_channels w ∨ ¬ bot_alone g ch
       ∨ connections w !! guild_id g = None →
       r = mkRun (Ok tt) w []).
Proof.
  intros g r. split.
  - intros Hb Ha. subst r. destruct before as [b], after as [a].
    simpl in *. subst. reflexivity.
  - intros ch Hb. apply (leave_run env member before after ch w Hb).
Qed.

(** X8: an event that has a previous channel never starts a recording:
    whatever the new channel is, allowed or not, the handler neither
    connects nor calls [start_recording].  Moving from one voice channel
    into an allowed one is therefore not a join. *)
Theorem move_never_starts_recording
    (env : Env) (member : Member) (before after : VoiceState) (w : World) :
  channel before ≠ None →
  let r := on_voice_state_update env member before after w in
  (∀ ch, ¬ In (Connect ch) (events r))
  ∧ (∀ v dest, ¬ In (StartRecording v dest) (events r))
  ∧ ∀ gid s, connections (final r) !! gid = Some s → connections w !! gid = Some s.
Proof.
  intros Hb r. subst r. unfold on_voice_state_update.
  destruct before as [[b|]]; [|done].
  destruct after as [[a|]]; exec; simpl.
  all: split; [intros c Hin; refute_in Hin|].
  all: split; [intros v dest Hin; refute_in Hin|].
  all: intros gid s' Hl; try done.
  all: destruct (decide (gid = guild_id (guild member))) as [->|Hne].
  all: try (rewrite lookup_delete_eq in Hl; discriminate).
  all: by rewrite lookup_delete_ne in Hl.
Qed.

(** X9: when an automatic start connects but [start_recording] raises,
    the handler logs the exception and returns with the session already
    registered.  From then on a join into that guild starts nothing: the
    registered session, which records nothing, blocks the automatic
    start. *)
Theorem auto_start_failure_leaves_session
    (env : Env) (member : Member) (ch : VoiceChannel) (w : World)
    (v : VoiceClient) (e : exn) :
  let g := guild member in
  let dest := get_channel g (SUMMARY_CHANNEL_ID w) in
  auto_start w g ch →
  connect env ch = Ok v →
  vc_start_recording env v dest = Raise e →
  let r := on_voice_state_update env member
             {| channel := None |} {| channel := Some ch |} w in
  outcome r = Ok tt
  ∧ connections (final r) !! guild_id g = Some {| vc := v; summary_channel := dest |}
  ∧ In (Log ERROR "Error in on_voice_state_update: %s" [e]) (events r)
  ∧ ∀ env' member' ch',
      guild_id (guild member') = guild_id g →
      on_voice_state_update env' member'
        {| channel := None |} {| channel := Some ch' |} (final r)
      = mkRun (Ok tt) (final r) [].
Proof.
  intros g dest Hstart Hv Hrec r. subst g dest.
  set (g := guild member) in *.
  set (dest := get_channel g (SUMMARY_CHANNEL_ID w)) in *.
  assert (Hr : final r = set_connections
                           <[guild_id g := {| vc := v; summary_channel := dest |}]> w
               ∧ outcome r = Ok tt
               ∧ In (Log ERROR "Error in on_voice_state_update: %s" [e]) (events r)).
  { subst r dest g. apply auto_start_decide in Hstart as (Ha & Hc & Hh).
    unfold on_voice_state_update. unfold_monad. rewrite Ha. unfold_monad.
    rewrite Hc, Hh. unfold_monad. rewrite Hv. unfold_monad.
    rewrite Hrec. simpl. auto 10. }
  destruct Hr as (Hfinal & Hout & Hlog).
  assert (Hl : connections (final r) !! guild_id g
               = Some {| vc := v; summary_channel := dest |}).
  { rewrite Hfinal. simpl. apply lookup_insert_eq. }
  split; [done|]. split; [done|]. split; [done|].
  intros env' member' ch' Hg.
  apply (join_run env' member' ch' (final r)).
  intros (_ & Hnone & _). rewrite Hg in Hnone. congruence.
Qed.

(** X10: when the bot is left alone in an allowed channel and
    [stop_recording()] raises, the handler logs the exception and returns,
    and the session stays in the registry: the state is what it was. *)
Theorem auto_stop_failure_keeps_session
    (env : Env) (member : Member) (before after : VoiceState)
    (ch : VoiceChannel) (s : Session) (w : World) (e : exn) :
  channel before = Some ch →
  vchan_id ch ∈ allowed_voice_channels w →
  bot_alone (guild member) ch →
  connections w !! guild_id (guild member) = Some s →
  vc_stop_recording env (vc s) = Raise e →
  let r := on_voice_state_update env member before after w in
  outcome r = Ok tt
  ∧ final r = w
  ∧ stops (events r) = [vc s]
  ∧ In (Log ERROR "Error in on_voice_state_update: %s" [e]) (events r).
Proof.
  intros Hb Hallowed Halone Hs Hstop r.
  destruct (leave_run env member before after ch w Hb) as [Hrun _].
  specialize (Hrun s Hallowed Halone Hs). rewrite Hstop in Hrun.
  subst r. rewrite Hrun. simpl. auto 10.
Qed.

(** X11: an automatic start followed by the automatic stop gives back the
    state before the start: the voice client stopped is the one the start
    connected, and the guild has no session again. *)
Theorem auto_start_then_auto_stop
    (env env' : Env) (member member' : Member) (ch ch' : VoiceChannel)
    (before' after' : VoiceState) (w : World) (v : VoiceClient) :
  auto_start w (guild member) ch →
  connect env ch = Ok v →
  guild_id (guild member') = guild_id (guild member) →
  channel before' = Some ch' →
  vchan_id ch' ∈ allowed_voice_channels w →
  bot_alone (guild member') ch' →
  vc_stop_recording env' v = Ok tt →
  let r := on_voice_state_update env member
             {| channel := None |} {| channel := Some ch |} w in
  let r' := on_voice_state_update env' member' before' after' (final r) in
  stops (events r') = [v] ∧ final r' = w.
Proof.
  intros Hstart Hv Hg Hb Hallowed Halone Hstop r r'.
  destruct (join_run env member ch w) as [Hyes _].
  specialize (Hyes Hstart). rewrite Hv in Hyes. destruct Hyes as (Hfinal & _).
  fold r in Hfinal.
  destruct (leave_run env' member' before' after' ch' (final r) Hb) as [Hrun _].
  specialize (Hrun {| vc := v;
                      summary_channel :=
                        get_channel (guild member) (SUMMARY_CHANNEL_ID w) |}).
  rewrite Hfinal in Hrun. simpl in Hrun. rewrite Hg in Hrun.
  specialize (Hrun Hallowed Halone (lookup_insert_eq _ _ _)).
  rewrite Hstop in Hrun. subst r'. rewrite Hfinal, Hrun. simpl.
  split; [done|].
  destruct Hstart as (_ & Hnone & _).
  destruct w; unfold set_connections; simpl in *. f_equal.
  rewrite delete_insert_eq. by apply delete_id.
Qed.

(** X12: the handlers that start and stop recordings change nothing but
    the session of the guild they are called for: the configuration (the
    three globals, the [config] dictionary and the file) and the sessions
    of all other guilds are what they were, whatever the collaborators
    answer. *)
Theorem recording_handlers_frame (env : Env) (w : World) :
  (∀ ctx, let r := record env ctx w in
          same_configuration w (final r)
          ∧ same_elsewhere (guild_id (ctx_guild ctx)) w (final r))
  ∧ (∀ ctx, let r := stop_recording env ctx w in
            same_configuration w (final r)
            ∧ same_elsewhere (guild_id (ctx_guild ctx)) w (final r))
  ∧ (∀ member before after,
       let r := on_voice_state_update env member before after w in
       same_configuration w (final r)
       ∧ same_elsewhere (guild_id (guild member)) w (final r)).
Proof.
  unfold same_configuration, same_elsewhere. split; [|split].
  - intros ctx. unfold record.
    destruct (voice ctx) as [[[ch|]]|]; exec; simpl.
    all: split; [done|]; intros gid' Hne; try done.
    all: by rewrite lookup_insert_ne.
  - intros ctx. unfold stop_recording. exec; simpl.
    all: split; [done|]; intros gid' Hne; try done.
    all: by rewrite lookup_delete_ne.
  - intros member before after. unfold on_voice_state_update.
    destruct before as [[b|]], after as [[a|]]; exec; simpl.
    all: split; [done|]; intros gid' Hne; try done.
    all: first [by rewrite lookup_insert_ne | by rewrite lookup_delete_ne].
Qed.

(** ** The completion pipeline, step by step *)

Ltac loop_free Hall :=
  simpl;
  rewrite ?sends_app, ?summarize_calls_app,
          ?(transcription_sends _ Hall), ?(transcription_summarize_calls _ Hall);
  simpl.

(** X13: the pipeline never raises and never changes the module state,
    whatever was captured and whatever the collaborators answer. *)
Theorem once_done_returns
    (env : Env) (sink : Sink) (channel : option TextChannel) (w : World) :
  let r := once_done env sink channel w in
  outcome r = Ok tt ∧ final r = w.
Proof.
  intros r. subst r. enter_pipeline env sink w evs Hall.
  all: split; reflexivity.
Qed.

(** X14: when the voice client cannot be disconnected, the run ends
    there: it logs the exception and calls nothing else, so nothing is
    transcribed, summarized or sent. *)
Theorem disconnect_failure_aborts_pipeline
    (env : Env) (sink : Sink) (channel : option TextChannel) (w : World) (e : exn) :
  vc_disconnect env (sink_vc sink) = Raise e →
  events (once_done env sink channel w)
  = [Disconnect (sink_vc sink); Log ERROR "Error in once_done: %s" [e]].
Proof.
  intros Hd. unfold once_done. unfold_monad. rewrite Hd. reflexivity.
Qed.

(** X15: a run makes one summarization call when the disconnection
    returned and none when it raised. *)
Theorem summarization_called_once
    (env : Env) (sink : Sink) (channel : option TextChannel) (w : World) :
  let r := once_done env sink channel w in
  (vc_disconnect env (sink_vc sink) = Ok tt → ∃ t, summarize_calls (events r) = [t])
  ∧ (∀ e, vc_disconnect env (sink_vc sink) = Raise e → summarize_calls (events r) = []).
Proof.
  intros r. subst r. enter_pipeline env sink w evs Hall.
  all: split; [intros Hok|intros e' He']; try congruence.
  all: loop_free Hall; eauto.
Qed.

(** X16: a run whose summarization succeeded, whose destination accepts
    the summary and whose transcript channel resolves sends two messages,
    in this order: the summary to the destination, then, to the transcript
    channel, the transcript that was summarized.  When the second post
    raises, the summary has been sent already and the exception is logged
    as the failure of the run. *)
Theorem summary_then_transcript
    (env : Env) (sink : Sink) (dest : TextChannel) (w : World)
    (t : string) (summary : option string) (transcript_channel : TextChannel) :
  let r := once_done env sink (Some dest) w in
  let users := map (λ item, mention (fst item)) (audio_data sink) in
  let first := summary_message (now env) users summary in
  let second := transcript_message (now env) users t in
  In (Summarize t) (events r) → acreate env t = Ok summary →
  send env dest first = Ok tt →
  bot_get_channel env (TRANSCRIPT_CHANNEL_ID w) = Some transcript_channel →
  sends (events r) = [(dest, first); (transcript_channel, second)]
  ∧ (send env transcript_channel second = Ok tt →
     ∀ e, ¬ In (Log ERROR "Error in once_done: %s" [e]) (events r))
  ∧ (∀ e, send env transcript_channel second = Raise e →
     In (Log ERROR "Error in once_done: %s" [e]) (events r)).
Proof.
  intros r users first second. subst r users first second.
  enter_pipeline env sink w evs Hall.
  all: intros Hin Ht Hsend Htc; split_in Hin; try not_in_loop.
  all: injection Hin as <-; try congruence.
  all: match goal with
       | H : acreate _ _ = Ok _ |- _ => rewrite Ht in H; injection H as <-
       end.
  all: try congruence.
  all: injection Htc as ->.
  all: split; [loop_free Hall; reflexivity|].
  all: split; [intros Hok err He|intros err He]; try congruence.
  - split_in He. not_in_loop.
  - find_in.
Qed.

(** X17: when the post of the summary raises, the run stops there: the
    summary is the only message it tried to send, the transcript is not
    posted even though its channel may resolve, and the exception is
    logged as the failure of the run. *)
Theorem summary_post_failure_skips_transcript
    (env : Env) (sink : Sink) (dest : TextChannel) (w : World)
    (t : string) (summary : option string) (e : exn) :
  let r := once_done env sink (Some dest) w in
  let users := map (λ item, mention (fst item)) (audio_data sink) in
  let first := summary_message (now env) users summary in
  In (Summarize t) (events r) → acreate env t = Ok summary →
  send env dest first = Raise e →
  sends (events r) = [(dest, first)]
  ∧ In (Log ERROR "Error in once_done: %s" [e]) (events r).
Proof.
  intros r users first. subst r users first.
  enter_pipeline env sink w evs Hall.
  all: intros Hin Ht Hsend; split_in Hin; try not_in_loop.
  all: injection Hin as <-; try congruence.
  all: match goal with
       | H : acreate _ _ = Ok _ |- _ => rewrite Ht in H; injection H as <-
       end.
  all: try congruence.
  split; [loop_free Hall; reflexivity|find_in].
Qed.

(** X18: with nothing captured, a run whose disconnection returned still
    calls the summarization service, on the empty transcript, without any
    call to the speech-to-text service. *)
Theorem empty_capture_is_summarized
    (env : Env) (sink : Sink) (channel : option TextChannel) (w : World) :
  audio_data sink = [] →
  vc_disconnect env (sink_vc sink) = Ok tt →
  let r := once_done env sink channel w in
  summarize_calls (events r) = [""]
  ∧ (∀ uid a, ¬ In (TempFile uid a) (events r))
  ∧ (∀ path, ¬ In (Transcribe path) (events r)).
Proof.
  intros Hempty Hd r. subst r. unfold once_done. unfold_monad.
  rewrite Hd, Hempty. cbn [transcribe_all]. exec; simpl.
  all: split; [reflexivity|].
  all: split; [intros uid au Hin|intros path Hin]; refute_in Hin.
Qed.

Lemma transcribe_one_files (env : Env) (user_id : Z) (audio : AudioData) (w : World) :
  let evs := events (transcribe_one env user_id audio w) in
  (∀ path, In (Remove path) evs → ∃ response, whisper env path = Ok response)
  ∧ (∀ path response, In (Transcribe path) evs → whisper env path = Ok response →
       In (Remove path) evs).
Proof.
  intros evs. subst evs. unfold transcribe_one. exec; simpl.
  all: split; [intros path Hin|intros path response Hin Hw]; split_in Hin.
  all: injection Hin as <-; eauto 10; congruence.
Qed.

Lemma transcribe_all_files (env : Env) (items : list (Z * AudioData)) (w : World) :
  let evs := events (transcribe_all env items w) in
  (∀ path, In (Remove path) evs → ∃ response, whisper env path = Ok response)
  ∧ (∀ path response, In (Transcribe path) evs → whisper env path = Ok response →
       In (Remove path) evs).
Proof.
  induction items as [|[user_id audio] rest IH]; simpl.
  - split; [intros path []|intros path response []].
  - pose proof (transcribe_one_files env user_id audio w) as [Hrm1 Htr1].
    destruct IH as [Hrm2 Htr2].
    destruct (transcribe_one_run env user_id audio w) as (evs1 & H1 & _).
    destruct (transcribe_all_run env rest w) as (evs2 & H2 & _).
    rewrite H1 in Hrm1, Htr1. rewrite H2 in Hrm2, Htr2. simpl in *.
    unfold_monad. rewrite H1, H2. simpl. rewrite app_nil_r.
    split.
    + intros path [Hin|Hin]%in_app_or; eauto.
    + intros path response [Hin|Hin]%in_app_or Hw; apply in_or_app; eauto.
Qed.

(** X19: in every run, a temporary file is removed only after the
    speech-to-text service has answered for it, and every file the service
    answered for is handed to [os.remove].  The file of a transcription
    that raised is thus never removed by the run. *)
Theorem temp_files_removed_after_transcription
    (env : Env) (sink : Sink) (channel : option TextChannel) (w : World) :
  let r := once_done env sink channel w in
  (∀ path, In (Remove path) (events r) → ∃ response, whisper env path = Ok response)
  ∧ (∀ path response, In (Transcribe path) (events r) →
       whisper env path = Ok response → In (Remove path) (events r))
  ∧ (∀ path e, whisper env path = Raise e → ¬ In (Remove path) (events r)).
Proof.
  intros r.
  assert (Hrm : ∀ path, In (Remove path) (events r)
                        → ∃ response, whisper env path = Ok response).
  { subst r. unfold once_done. unfold_monad.
    destruct (vc_disconnect env (sink_vc sink)) as [[]|e] eqn:Hd.
    2:{ simpl. intros path Hin. refute_in Hin. }
    pose proof (transcribe_all_files env (audio_data sink) w) as [Hrm _].
    destruct (transcribe_all_run env (audio_data sink) w) as (evs & Hrun & Hall).
    rewrite Hrun in Hrm |- *. simpl in Hrm. exec; units; simpl.
    all: intros path Hin; split_in Hin; eauto. }
  split; [exact Hrm|]. split.
  - subst r. unfold once_done. unfold_monad.
    destruct (vc_disconnect env (sink_vc sink)) as [[]|e] eqn:Hd.
    2:{ simpl. intros path response Hin. refute_in Hin. }
    pose proof (transcribe_all_files env (audio_data sink) w) as [_ Htr].
    destruct (transcribe_all_run env (audio_data sink) w) as (evs & Hrun & Hall).
    rewrite Hrun in Htr |- *. simpl in Htr. exec; units; simpl.
    all: intros path response Hin Hw; split_in Hin.
    all: right; rewrite ?in_app_iff; eauto.
  - intros path e He Hin. apply Hrm in Hin as [response Hr]. congruence.
Qed.

(** ** The configuration commands, beyond the list of channels *)

Section FurtherSetterProperties.

Variable int : string → result Z.

(** X20: a channel id that does not convert makes [set_summary_channel]
    and [set_transcript_channel] change nothing: the exception is logged,
    the user gets the invalid-id answer, and the file is not opened. *)
Theorem single_channel_setters_reject_invalid
    (env : Env) (ctx : Context) (channel_id : string) (w : World) (e : exn) :
  int channel_id = Raise e →
  let r1 := set_summary_channel int env ctx channel_id w in
  let r2 := set_transcript_channel int env ctx channel_id w in
  (final r1 = w
   ∧ In (Log ERROR "Invalid channel ID provided: %s" [e]) (events r1)
   ∧ sends (events r1) = [(ctx_channel ctx, "Invalid channel ID provided!")]
   ∧ ¬ In OpenConfig (events r1)
   ∧ outcome r1 = send env (ctx_channel ctx) "Invalid channel ID provided!")
  ∧ (final r2 = w
     ∧ In (Log ERROR "Invalid channel ID provided: %s" [e]) (events r2)
     ∧ sends (events r2) = [(ctx_channel ctx, "Invalid channel ID provided!")]
     ∧ ¬ In OpenConfig (events r2)
     ∧ outcome r2 = send env (ctx_channel ctx) "Invalid channel ID provided!").
Proof.
  intros He r1 r2. subst r1 r2.
  unfold set_summary_channel, set_transcript_channel.
  unfold_monad. rewrite He. exec; units; simpl.
  all: repeat split; auto 10.
  all: intros Hin; refute_in Hin.
Qed.

(** X21: a channel id that converts to [n] makes [set_summary_channel]
    store [n] in [SUMMARY_CHANNEL_ID] and in the entry of [config], and
    [set_transcript_channel] likewise for the transcript channel; no check
    is made that [n] is the id of a channel.  Once the file is opened the
    whole dictionary is dumped, and once the dump returns it is on disk
    and the user is told the new id. *)
Theorem single_channel_setters_store_converted_id
    (env : Env) (ctx : Context) (channel_id : string) (w : World) (n : Z) :
  int channel_id = Ok n →
  let r1 := set_summary_channel int env ctx channel_id w in
  let r2 := set_transcript_channel int env ctx channel_id w in
  (SUMMARY_CHANNEL_ID (final r1) = n
   ∧ config (final r1) = <["SUMMARY_CHANNEL_ID" := VInt n]> (config w)
   ∧ (open_config env = Ok tt →
      In (DumpConfig (config (final r1))) (events r1)
      ∧ (json_dump env (config (final r1)) = Ok tt →
         config_file (final r1) = Holds (config (final r1))
         ∧ sends (events r1)
           = [(ctx_channel ctx, "Summary channel set to: " +:+ str_int n)])))
  ∧ (TRANSCRIPT_CHANNEL_ID (final r2) = n
     ∧ config (final r2) = <["TRANSCRIPT_CHANNEL_ID" := VInt n]> (config w)
     ∧ (open_config env = Ok tt →
        In (DumpConfig (config (final r2))) (events r2)
        ∧ (json_dump env (config (final r2)) = Ok tt →
           config_file (final r2) = Holds (config (final r2))
           ∧ sends (events r2)
             = [(ctx_channel ctx, "Transcript channel set to: " +:+ str_int n)]))).
Proof.
  intros Hn r1 r2. subst r1 r2.
  unfold set_summary_channel, set_transcript_channel, dump_config.
  unfold_monad. rewrite Hn. exec; units; simpl.
  all: repeat split; intros; simpl in *; auto 10; congruence.
Qed.

(** X22: a setter never touches the session registry, nor the entries of
    [config] under the other keys, nor the globals of the other two
    settings, however the call ends. *)
Theorem setters_frame (env : Env) (ctx : Context) (c : setter) (w : World) :
  let r := run_setter int env ctx c w in
  connections (final r) = connections w
  ∧ (∀ k, k ≠ setter_key c → config (final r) !! k = config w !! k)
  ∧ match c with
    | SetSummaryChannel _ =>
        allowed_voice_channels (final r) = allowed_voice_channels w
        ∧ TRANSCRIPT_CHANNEL_ID (final r) = TRANSCRIPT_CHANNEL_ID w
    | SetTranscriptChannel _ =>
        allowed_voice_channels (final r) = allowed_voice_channels w
        ∧ SUMMARY_CHANNEL_ID (final r) = SUMMARY_CHANNEL_ID w
    | SetAutoRecordChannels _ =>
        SUMMARY_CHANNEL_ID (final r) = SUMMARY_CHANNEL_ID w
        ∧ TRANSCRIPT_CHANNEL_ID (final r) = TRANSCRIPT_CHANNEL_ID w
    end.
Proof.
  intros r. subst r.
  destruct c as [channel_id|channel_id|channel_ids]; simpl.
  - unfold set_summary_channel, dump_config. exec; simpl.
    all: repeat split; auto; intros k Hk; by rewrite lookup_insert_ne.
  - unfold set_transcript_channel, dump_config. exec; simpl.
    all: repeat split; auto; intros k Hk; by rewrite lookup_insert_ne.
  - unfold set_auto_record_channels, dump_config.
    unfold_monad. rewrite ints_run. exec; simpl.
    all: repeat split; auto; intros k Hk; by rewrite lookup_insert_ne.
Qed.


End FurtherSetterProperties.

(** ** Loading and reloading the configuration *)

(** X24: whenever the module loads, the registry is empty, the three
    globals are the entries of the loaded dictionary (or the defaults for
    missing keys), and the file holds exactly that dictionary: the file as
    it was found, or the default configuration when there was none. *)
Theorem module_init_in_sync (env : Env) (on_disk : option disk) (w : World) :
  module_init env on_disk = Started w →
  connections w = ∅
  ∧ mirrors w
  ∧ config_file w = Holds (config w)
  ∧ match on_disk with
    | Some d => config_file w = d
    | None => config w = default_config
    end.
Proof.
  unfold module_init, get_ids, get_id.
  destruct on_disk as [[doc|]|]; destruct (open_config env) as [[]|e];
    try discriminate.
  - destruct (doc !! "allowed_voice_channels") as [[|l]|] eqn:Ha;
      destruct (doc !! "SUMMARY_CHANNEL_ID") as [[s|]|] eqn:Hs;
      destruct (doc !! "TRANSCRIPT_CHANNEL_ID") as [[t|]|] eqn:Ht;
      try discriminate.
    all: intros [= <-]; unfold mirrors; simpl; rewrite Ha, Hs, Ht; auto.
  - destruct (json_dump env default_config) as [[]|e]; [|discriminate].
    assert (Ha : default_config !! "allowed_voice_channels" = Some (VList []))
      by reflexivity.
    assert (Hs : default_config !! "SUMMARY_CHANNEL_ID" = Some (VInt placeholder_id))
      by reflexivity.
    assert (Ht : default_config !! "TRANSCRIPT_CHANNEL_ID" = Some (VInt placeholder_id))
      by reflexivity.
    rewrite Ha, Hs, Ht. intros [= <-]. unfold mirrors. simpl.
    rewrite Ha, Hs, Ht. auto 10.
Qed.

(** A world whose globals mirror the dictionary that is on disk is what
    the module loads from that disk, sessions apart. *)
Lemma reload_in_sync (env : Env) (w : World) :
  mirrors w → config_file w = Holds (config w) → open_config env = Ok tt →
  module_init env (Some (config_file w)) = Started (set_connections (λ _, ∅) w).
Proof.
  intros (Ha & Hs & Ht) Hfile Hopen. unfold module_init, get_ids, get_id.
  rewrite Hfile, Hopen. destruct w as [conns allowed sid tid cfg file].
  unfold placeholder_id in *. simpl in *.
  destruct (cfg !! "allowed_voice_channels") as [v|]; subst;
    destruct (cfg !! "SUMMARY_CHANNEL_ID") as [v|]; subst;
    destruct (cfg !! "TRANSCRIPT_CHANNEL_ID") as [v|]; subst; reflexivity.
Qed.

Section Restart.

Variable int : string → result Z.

(** What a setter that reports success leaves in memory and on disk. *)
Lemma run_setter_reported (env : Env) (ctx : Context) (c : setter) (w : World) :
  let r := run_setter int env ctx c w in
  In (Send (ctx_channel ctx) (success_reply c (final r))) (events r) →
  config_file (final r) = Holds (config (final r))
  ∧ (mirrors w → mirrors (final r)).
Proof.
  intros r. subst r.
  destruct c as [channel_id|channel_id|channel_ids]; simpl.
  - unfold set_summary_channel, dump_config. exec; simpl; intros Hin.
    all: try (refute_in Hin; fail).
    all: split; [reflexivity|].
    all: unfold mirrors; simpl; rewrite lookup_insert_eq.
    all: rewrite !lookup_insert_ne by done; tauto.
  - unfold set_transcript_channel, dump_config. exec; simpl; intros Hin.
    all: try (refute_in Hin; fail).
    all: split; [reflexivity|].
    all: unfold mirrors; simpl; rewrite lookup_insert_eq.
    all: rewrite !lookup_insert_ne by done; tauto.
  - unfold set_auto_record_channels, dump_config.
    unfold_monad. rewrite ints_run. exec; simpl; intros Hin.
    all: try (refute_in Hin; fail).
    all: split; [reflexivity|].
    all: unfold mirrors; simpl; rewrite lookup_insert_eq.
    all: rewrite !lookup_insert_ne by done; tauto.
Qed.

(** X25: a setting that was reported as saved is what the bot reads when
    it starts again.  From a state whose globals mirror [config], after a
    setter that reported success, loading the module from the file as the
    setter left it gives the same dictionary, the same three globals and
    the same file, with an empty registry. *)
Theorem settings_survive_restart
    (env env' : Env) (ctx : Context) (c : setter) (w : World) :
  mirrors w →
  let r := run_setter int env ctx c w in
  In (Send (ctx_channel ctx) (success_reply c (final r))) (events r) →
  open_config env' = Ok tt →
  module_init env' (Some (config_file (final r)))
  = Started (set_connections (λ _, ∅) (final r)).
Proof.
  intros Hm r Hin Hopen.
  destruct (run_setter_reported env ctx c w Hin) as [Hfile Hmirror].
  apply reload_in_sync; auto.
Qed.

End Restart.

(** ** Showing the configuration *)

Lemma show_config_events (env : Env) (ctx : Context) (w w' : World) :
  allowed_voice_channels w = allowed_voice_channels w' →
  SUMMARY_CHANNEL_ID w = SUMMARY_CHANNEL_ID w' →
  TRANSCRIPT_CHANNEL_ID w = TRANSCRIPT_CHANNEL_ID w' →
  events (show_config env ctx w) = events (show_config env ctx w').
Proof.
  intros Ha Hs Ht. unfold show_config. unfold_monad.
  rewrite Ha, Hs, Ht. exec; reflexivity.
Qed.

(** X26: [show_config] reads the three globals only.  After a setter
    whose argument converted it reports the new value, whether or not the
    file could be written: it sends what it would send in the state where
    just that global is changed. *)
Theorem show_config_after_setter
    (int : string → result Z) (env env' : Env) (ctx ctx' : Context) (w : World) :
  (∀ channel_id n, int channel_id = Ok n →
     events (show_config env' ctx'
               (final (set_summary_channel int env ctx channel_id w)))
     = events (show_config env' ctx' (set_SUMMARY_CHANNEL_ID n w)))
  ∧ (∀ channel_id n, int channel_id = Ok n →
       events (show_config env' ctx'
                 (final (set_transcript_channel int env ctx channel_id w)))
       = events (show_config env' ctx' (set_TRANSCRIPT_CHANNEL_ID n w)))
  ∧ (∀ channel_ids l, Forall2 (λ cid n, int cid = Ok n) channel_ids l →
       events (show_config env' ctx'
                 (final (set_auto_record_channels int env ctx channel_ids w)))
       = events (show_config env' ctx' (set_allowed_voice_channels l w))).
Proof.
  split; [|split].
  - intros channel_id n Hn. apply show_config_events.
    all: unfold set_summary_channel, dump_config.
    all: unfold_monad; rewrite Hn; exec; reflexivity.
  - intros channel_id n Hn. apply show_config_events.
    all: unfold set_transcript_channel, dump_config.
    all: unfold_monad; rewrite Hn; exec; reflexivity.
  - intros channel_ids l Hl%converted_all. apply show_config_events.
    all: unfold set_auto_record_channels, dump_config.
    all: unfold_monad; rewrite ints_run, Hl; exec; reflexivity.
Qed.

(** ** Further runs on the sample guild *)

Lemma stop_recording_without_session_witness :
  final (stop_recording fair alice_asks idle) = idle
  ∧ stops (events (stop_recording fair alice_asks idle)) = [].
Proof.
  pose proof (stop_recording_without_session fair alice_asks idle eq_refl)
    as (Hfinal & Hstops & _).
  split; [exact Hfinal|exact Hstops].
Defined.

Lemma stop_recording_with_session_witness :
  stops (events (stop_recording fair alice_asks busy)) = [handle 1].
Proof.
  exact (proj1 (stop_recording_with_session fair alice_asks busy first_session eq_refl)).
Defined.

Lemma record_outside_voice_witness :
  final (record fair bob_asks idle) = idle.
Proof.
  exact (proj1 (record_outside_voice fair bob_asks idle eq_refl)).
Defined.

Lemma record_registers_invoking_channel_witness :
  sends (events (record fair alice_asks idle))
  = [(general, "🔴 Listening to this conversation.")].
Proof.
  pose proof (record_registers_invoking_channel fair alice_asks idle
                {| channel := Some (lobby [recorder; alice]) |}
                (lobby [recorder; alice]) (handle 2) eq_refl eq_refl eq_refl)
    as (_ & _ & Hok & _).
  exact (proj1 (Hok eq_refl)).
Defined.

Lemma record_connect_failure_reported_witness :
  final (record (faulty no_voice_gateway) alice_asks idle) = idle.
Proof.
  exact (proj1 (record_connect_failure_reported (faulty no_voice_gateway)
                  alice_asks idle
                  {| channel := Some (lobby [recorder; alice]) |}
                  (lobby [recorder; alice]) "Timed out connecting to voice"
                  eq_refl eq_refl eq_refl)).
Defined.

Lemma record_then_stop_recording_witness :
  final (stop_recording fair alice_asks (final (record fair alice_asks idle))) = idle.
Proof.
  pose proof (record_then_stop_recording fair fair alice_asks alice_asks idle
                {| channel := Some (lobby [recorder; alice]) |}
                (lobby [recorder; alice]) (handle 2)
                eq_refl eq_refl eq_refl eq_refl eq_refl)
    as (_ & _ & _ & Hback).
  exact (Hback eq_refl).
Defined.

Lemma move_never_starts_recording_witness :
  let r := on_voice_state_update fair alice_in_town
             {| channel := Some (lobby [jukebox]) |}
             {| channel := Some (lobby [recorder; alice]) |} idle in
  (∀ ch, ¬ In (Connect ch) (events r))
  ∧ (∀ v dest, ¬ In (StartRecording v dest) (events r)).
Proof.
  assert (Hb : channel {| channel := Some (lobby [jukebox]) |} ≠ None) by discriminate.
  pose proof (move_never_starts_recording fair alice_in_town
                {| channel := Some (lobby [jukebox]) |}
                {| channel := Some (lobby [recorder; alice]) |} idle Hb)
    as (Hconnect & Hstart & _).
  split; [exact Hconnect|exact Hstart].
Defined.

Lemma alice_may_start : auto_start idle (guild alice_in_town) (lobby [recorder; alice]).
Proof.
  split; [vm_compute; constructor|]. split; [reflexivity|].
  exists alice. split; [vm_compute; repeat constructor|reflexivity].
Defined.

Lemma recorder_is_alone : bot_alone (guild alice_in_town) (lobby [recorder]).
Proof. exists recorder. split; reflexivity. Defined.

Lemma lobby_is_allowed (ms : list User) (w : World) :
  allowed_voice_channels w = [100] → vchan_id (lobby ms) ∈ allowed_voice_channels w.
Proof. intros ->. simpl. constructor. Defined.

Lemma auto_start_failure_leaves_session_witness :
  let r := on_voice_state_update (faulty no_recording) alice_in_town
             gone {| channel := Some (lobby [recorder; alice]) |} idle in
  outcome r = Ok tt
  ∧ connections (final r) !! 7 = Some {| vc := handle 2; summary_channel := Some notes |}.
Proof.
  pose proof (auto_start_failure_leaves_session (faulty no_recording) alice_in_town
                (lobby [recorder; alice]) idle (handle 2)
                "Not connected to voice channel."
                alice_may_start eq_refl eq_refl) as (Hout & Hreg & _).
  split; [exact Hout|exact Hreg].
Defined.

Lemma auto_stop_failure_keeps_session_witness :
  final (on_voice_state_update (faulty no_recording) alice_in_town
           recorder_alone gone busy) = busy.
Proof.
  pose proof (auto_stop_failure_keeps_session (faulty no_recording) alice_in_town
                recorder_alone gone (lobby [recorder]) first_session busy
                "Not currently recording audio."
                eq_refl (lobby_is_allowed [recorder] busy eq_refl)
                recorder_is_alone eq_refl eq_refl) as (_ & Hfinal & _).
  exact Hfinal.
Defined.

Lemma auto_start_then_auto_stop_witness :
  final (on_voice_state_update fair alice_in_town recorder_alone gone
           (final (on_voice_state_update fair alice_in_town
                     gone {| channel := Some (lobby [recorder; alice]) |} idle)))
  = idle.
Proof.
  exact (proj2 (auto_start_then_auto_stop fair fair alice_in_town alice_in_town
                  (lobby [recorder; alice]) (lobby [recorder])
                  recorder_alone gone idle (handle 2)
                  alice_may_start eq_refl eq_refl eq_refl
                  (lobby_is_allowed [recorder] idle eq_refl)
                  recorder_is_alone eq_refl)).
Defined.

Lemma disconnect_failure_aborts_pipeline_witness :
  events (once_done (faulty voice_stuck) tape (Some notes) idle)
  = [Disconnect (handle 1);
     Log ERROR "Error in once_done: %s" ["Cannot write to closing transport"]].
Proof.
  exact (disconnect_failure_aborts_pipeline (faulty voice_stuck) tape (Some notes) idle
           "Cannot write to closing transport" eq_refl).
Defined.

Lemma summary_then_transcript_witness :
  map fst (sends (events (once_done fair tape (Some notes) idle))) = [notes; general].
Proof.
  assert (Hin : In (Summarize (final_transcript (transcripts_of fair (audio_data tape))))
                   (events (once_done fair tape (Some notes) idle)))
    by in_explicit.
  pose proof (summary_then_transcript fair tape notes idle
                (final_transcript (transcripts_of fair (audio_data tape)))
                (Some "minutes") general Hin eq_refl eq_refl eq_refl) as (Hsends & _).
  rewrite Hsends. reflexivity.
Defined.

Lemma summary_post_failure_skips_transcript_witness :
  map fst (sends (events (once_done (faulty muted) tape (Some notes) idle))) = [notes].
Proof.
  assert (Hin : In (Summarize
                      (final_transcript (transcripts_of (faulty muted) (audio_data tape))))
                   (events (once_done (faulty muted) tape (Some notes) idle)))
    by in_explicit.
  pose proof (summary_post_failure_skips_transcript (faulty muted) tape notes idle
                (final_transcript (transcripts_of (faulty muted) (audio_data tape)))
                (Some "minutes")
                "403 Forbidden (error code: 50013): Missing Permissions"
                Hin eq_refl eq_refl) as (Hsends & _).
  rewrite Hsends. reflexivity.
Defined.

Lemma empty_capture_is_summarized_witness :
  summarize_calls (events (once_done fair silence (Some notes) idle)) = [""].
Proof.
  exact (proj1 (empty_capture_is_summarized fair silence (Some notes) idle
                  eq_refl eq_refl)).
Defined.

Lemma single_channel_setters_reject_invalid_witness :
  final (set_summary_channel py_int fair alice_asks "#notes" idle) = idle
  ∧ final (set_transcript_channel py_int fair alice_asks "#notes" idle) = idle.
Proof.
  pose proof (single_channel_setters_reject_invalid py_int fair alice_asks "#notes" idle
                "invalid literal for int() with base 10: '#notes'" eq_refl)
    as ((H1 & _) & (H2 & _)).
  split; [exact H1|exact H2].
Defined.

Lemma single_channel_setters_store_converted_id_witness :
  SUMMARY_CHANNEL_ID (final (set_summary_channel py_int fair alice_asks "-5" idle)) = -5
  ∧ TRANSCRIPT_CHANNEL_ID
      (final (set_transcript_channel py_int fair alice_asks "-5" idle)) = -5.
Proof.
  pose proof (single_channel_setters_store_converted_id py_int fair alice_asks "-5" idle
                (-5) eq_refl) as ((H1 & _) & (H2 & _)).
  split; [exact H1|exact H2].
Defined.


Lemma module_init_in_sync_witness :
  mirrors fresh ∧ config_file fresh = Holds (config fresh).
Proof.
  pose proof (module_init_in_sync fair None fresh eq_refl) as (_ & Hm & Hf & _).
  split; [exact Hm|exact Hf].
Defined.

Lemma idle_mirrors : mirrors idle.
Proof. repeat split. Defined.

Lemma settings_survive_restart_witness :
  let r := run_setter py_int fair alice_asks (SetAutoRecordChannels ["100"; "101"]) idle in
  module_init fair (Some (config_file (final r)))
  = Started (set_connections (λ _, ∅) (final r)).
Proof.
  assert (Hin : In (Send (ctx_channel alice_asks)
                      (success_reply (SetAutoRecordChannels ["100"; "101"])
                         (final (run_setter py_int fair alice_asks
                                   (SetAutoRecordChannels ["100"; "101"]) idle))))
                   (events (run_setter py_int fair alice_asks
                              (SetAutoRecordChannels ["100"; "101"]) idle)))
    by in_explicit.
  exact (settings_survive_restart py_int fair fair alice_asks
           (SetAutoRecordChannels ["100"; "101"]) idle idle_mirrors Hin eq_refl).
Defined.
